(** * SMTP-to-SendGrid relay: session callbacks and delivery translation

    A shallow embedding of [main.go].  Go strings are byte sequences and are
    modelled by [string] (a list of 8-bit [ascii]); [len] is [String.length].
    The callbacks of [Session] run in a small state-and-trace monad: the state
    is the [Session] the pointer receiver mutates, the trace records every
    logging call and every request handed to the SendGrid client.

    The third-party packages ([net/mail], [mime], [mime/multipart], the
    SendGrid client) are external to the program: they are the fields of the
    class [GoLib], and every theorem holds for all their behaviours. *)

From Stdlib Require Import String Ascii List ZArith Lia Bool Arith DecimalString.
Import ListNotations.
Open Scope string_scope.

(** ** Package [strings] and slicing *)

Module strings.

(** [s[n:]] for [n <= len(s)]. *)
Fixpoint slice_from (s : string) (n : nat) : string :=
  match n, s with
  | O, _ => s
  | S n', String _ s' => slice_from s' n'
  | S _, EmptyString => EmptyString
  end.

(** [s[:n]] for [n <= len(s)]. *)
Fixpoint slice_to (s : string) (n : nat) : string :=
  match n, s with
  | O, _ => EmptyString
  | S n', String c s' => String c (slice_to s' n')
  | S _, EmptyString => EmptyString
  end.

(** [len(s) >= len(prefix) && s[:len(prefix)] == prefix] *)
Definition HasPrefix (s prefix : string) : bool :=
  Nat.leb (String.length prefix) (String.length s)
  && (slice_to s (String.length prefix) =? prefix).

(** [len(s) >= len(suffix) && s[len(s)-len(suffix):] == suffix] *)
Definition HasSuffix (s suffix : string) : bool :=
  Nat.leb (String.length suffix) (String.length s)
  && (slice_from s (String.length s - String.length suffix) =? suffix).

(** [Index(s, substr) >= 0]: some position of [s] starts with [substr]. *)
Fixpoint Contains (s substr : string) : bool :=
  HasPrefix s substr
  || match s with
     | EmptyString => false
     | String _ s' => Contains s' substr
     end.

(** The ASCII path of [ToLower]: ['A' <= c && c <= 'Z'] gives
    [c + 'a' - 'A'], every other byte is kept.  (On bytes above 0x7f Go maps
    runes through the Unicode tables; those strings are outside this model,
    and the theorems that characterise what [Mail] and [parseLogLevel] accept
    are stated for [isASCII] strings.) *)
Definition lower_byte (c : ascii) : ascii :=
  let n := nat_of_ascii c in
  if Nat.leb 65 n && Nat.leb n 90 then ascii_of_nat (n + 32) else c.

Fixpoint ToLower (s : string) : string :=
  match s with
  | EmptyString => EmptyString
  | String c s' => String (lower_byte c) (ToLower s')
  end.

Fixpoint IndexByte (cutset : string) (c : ascii) : bool :=
  match cutset with
  | EmptyString => false
  | String d cutset' => Ascii.eqb c d || IndexByte cutset' c
  end.

Fixpoint TrimLeft (s cutset : string) : string :=
  match s with
  | EmptyString => EmptyString
  | String c s' => if IndexByte cutset c then TrimLeft s' cutset else s
  end.

Fixpoint TrimRight (s cutset : string) : string :=
  match s with
  | EmptyString => EmptyString
  | String c s' =>
      match TrimRight s' cutset with
      | EmptyString => if IndexByte cutset c then EmptyString
                       else String c EmptyString
      | t => String c t
      end
  end.

(** [Trim] removes every leading and trailing byte contained in [cutset]. *)
Definition Trim (s cutset : string) : string :=
  TrimRight (TrimLeft s cutset) cutset.

(** The white space of the ASCII path of [TrimSpace]: tab, line feed, vertical
    tab, form feed, carriage return, space.  (A string with bytes above 0x7f at
    its ends is trimmed by Go with the Unicode tables; those strings are
    outside this model, and the theorem that computes the allow-list of
    [loadConfig] is stated for an [isASCII] value.) *)
Definition asciiSpace : string :=
  String "009" (String "010" (String "011" (String "012"
    (String "013" (String " " EmptyString))))).

Definition TrimSpace (s : string) : string := Trim s asciiSpace.

(** [Split(s, sep)] for a non-empty [sep]: the pieces of [s] between the
    successive, non-overlapping occurrences of [sep], found from the left.
    [skip] counts the bytes of a found separator still to pass, [cur] is the
    piece being read. *)
Fixpoint splitFrom (s sep : string) (skip : nat) (cur : string) : list string :=
  match s with
  | EmptyString => [cur]
  | String c s' =>
      match skip with
      | S k => splitFrom s' sep k cur
      | O =>
          if HasPrefix s sep then
            cur :: splitFrom s' sep (String.length sep - 1) EmptyString
          else splitFrom s' sep 0 (cur ++ String c EmptyString)
      end
  end.

Definition Split (s sep : string) : list string := splitFrom s sep 0 EmptyString.

End strings.

(** ** Errors *)

(** A Go [error]: a message, or a message wrapping another error
    ([fmt.Errorf] with [%w]). *)
Inductive error : Type :=
| errorString (msg : string)
| wrapError (msg : string) (err : error).

(** [err.Error()] *)
Fixpoint Error (e : error) : string :=
  match e with
  | errorString msg => msg
  | wrapError msg err => msg ++ Error err
  end.

(** A Go result pair [(v, err)], of which the code uses exactly one side. *)
Inductive result (A : Type) : Type :=
| Ok (v : A)
| Err (err : error).
Arguments Ok {A} v.
Arguments Err {A} err.

(** [%d] of an [int]. *)
Definition itoa (n : Z) : string := NilZero.string_of_int (Z.to_int n).

(** An [io.Reader], as what [io.ReadAll] returns on it: all its bytes, or an
    error. *)
Inductive Reader : Type :=
| bytesReader (data : string)
| failingReader (err : error).

Definition io_ReadAll (r : Reader) : result string :=
  match r with
  | bytesReader data => Ok data
  | failingReader err => Err err
  end.

(** ** Configuration and logging *)

Record Config : Type := mkConfig {
  SendGridAPIKey : string;
  ListenAddr : string;
  Domain : string;
  LogLevel_ : string;
  AllowedSenders : list string
}.

Inductive LogLevel : Type := LogDebug | LogInfo | LogWarn | LogError.

(** The [iota] values of the levels. *)
Definition LogLevel_int (l : LogLevel) : Z :=
  match l with
  | LogDebug => 0
  | LogInfo => 1
  | LogWarn => 2
  | LogError => 3
  end.

Definition parseLogLevel (level : string) : LogLevel :=
  let l := strings.ToLower level in
  if l =? "debug" then LogDebug
  else if l =? "info" then LogInfo
  else if (l =? "warn") || (l =? "warning") then LogWarn
  else if l =? "error" then LogError
  else LogInfo.

(** ** [net/mail], [mime/multipart] and SendGrid data *)

(** [mail.Header] and [textproto.MIMEHeader]: canonical key to values. *)
Definition Header : Type := list (string * list string).

(** [h.Get(key)]: the first value stored under [key], or [""].  The keys the
    program asks for ("Subject", "From", "Content-Type") are already in
    canonical form. *)
Fixpoint Header_Get (h : Header) (key : string) : string :=
  match h with
  | [] => ""
  | (k, v) :: h' =>
      if k =? key then match v with [] => "" | x :: _ => x end
      else Header_Get h' key
  end.

Record Message : Type := mkMessage {
  Msg_Header : Header;
  Msg_Body : Reader
}.

Record Address : Type := mkAddress {
  Addr_Name : string;
  Addr_Address : string
}.

Record Part : Type := mkPart {
  Part_Header : Header;
  Part_Body : Reader
}.

(** A [multipart.Reader] over a finite body, as the sequence of results of its
    successive [NextPart] calls: parts, closed by [io.EOF] ([MREOF]) or by
    another error ([MRError]). *)
Inductive MultipartReader : Type :=
| MREOF
| MRError (err : error)
| MRPart (part : Part) (next : MultipartReader).

(** [map[string]string]; a missing key reads as [""]. *)
Definition Params : Type := list (string * string).

Fixpoint Params_get (p : Params) (key : string) : string :=
  match p with
  | [] => ""
  | (k, v) :: p' => if k =? key then v else Params_get p' key
  end.

Record Email : Type := mkEmail {
  Email_Name : string;
  Email_Address : string
}.

Record Content : Type := mkContent {
  Content_Type : string;
  Content_Value : string
}.

Record Personalization : Type := mkPersonalization {
  To : list Email
}.

Record SGMailV3 : Type := mkSGMailV3 {
  From : option Email;
  Subject : string;
  Personalizations : list Personalization;
  Contents : list Content
}.

Record Response : Type := mkResponse {
  StatusCode : Z;
  Body : string
}.

Definition NewEmail (name address : string) : Email := mkEmail name address.
Definition NewContent (contentType value : string) : Content :=
  mkContent contentType value.
Definition NewPersonalization : Personalization := mkPersonalization [].
Definition AddTos (p : Personalization) (e : Email) : Personalization :=
  mkPersonalization (To p ++ [e]).
Definition NewV3Mail : SGMailV3 := mkSGMailV3 None "" [] [].
Definition SetFrom (m : SGMailV3) (e : Email) : SGMailV3 :=
  mkSGMailV3 (Some e) (Subject m) (Personalizations m) (Contents m).
Definition SetSubject (m : SGMailV3) (s : string) : SGMailV3 :=
  mkSGMailV3 (From m) s (Personalizations m) (Contents m).
Definition AddPersonalizations (m : SGMailV3) (p : Personalization) : SGMailV3 :=
  mkSGMailV3 (From m) (Subject m) (Personalizations m ++ [p]) (Contents m).
Definition AddContent (m : SGMailV3) (c : Content) : SGMailV3 :=
  mkSGMailV3 (From m) (Subject m) (Personalizations m) (Contents m ++ [c]).

(** The external packages the program calls. *)
Class GoLib : Type := mkGoLib {
  mail_ReadMessage : string -> result Message;
  WordDecoder_DecodeHeader : string -> result string;
  mail_ParseAddress : string -> result Address;
  mime_ParseMediaType : string -> result (string * Params);
  multipart_NewReader : string -> string -> MultipartReader;
  SendClient_Send : string -> SGMailV3 -> result Response
}.

(** ** Sessions, and the monad their callbacks run in *)

Record Session : Type := mkSession {
  config : Config;
  remoteAddr : string;
  from : string;
  to : list string
}.

(** The format string and arguments of each logging call of the program.
    ([duration] of the success record is wall-clock time and is left out.) *)
Inductive LogMsg : Type :=
| msgNewSession (remote : string)
| msgAuthAttempt (remote : string)
| msgRejectedSender (sender : string)
| msgMailFrom (sender : string)
| msgRcptTo (rcpt : string)
| msgReadDataFailed (err : error)
| msgReceived (bytes : nat)
| msgParseFailed (err : error)
| msgSubject (subject : string)
| msgFromHeader (hdr : string)
| msgContentType (ct : string)
| msgReadBodyFailed (err : error)
| msgSendFailed (err : error)
| msgEmailSent (sender : string) (rcpts : list string) (subject : string)
| msgMultipartFallback (err : error)
| msgSendGridError (status : Z) (body : string)
| msgSendGridResponse (status : Z)
| msgSessionReset
| msgLogout (remote : string).

(** What a callback does to the outside: a call of one of the four logging
    functions, or a request passed to [client.Send] under an API key. *)
Inductive Event : Type :=
| Log (level : LogLevel) (msg : LogMsg)
| ApiSend (apiKey : string) (request : SGMailV3).

(** The guard of [logDebug] .. [logError]: a record is printed only
    [if currentLogLevel <= level]. *)
Definition printed (currentLogLevel : LogLevel) (e : Event) : bool :=
  match e with
  | Log level _ => (LogLevel_int currentLogLevel <=? LogLevel_int level)%Z
  | ApiSend _ _ => false
  end.

(** The requests submitted to the provider, in order. *)
Fixpoint submitted (tr : list Event) : list SGMailV3 :=
  match tr with
  | [] => []
  | ApiSend _ request :: tr' => request :: submitted tr'
  | Log _ _ :: tr' => submitted tr'
  end.

Definition M (A : Type) : Type := Session -> A * Session * list Event.

Definition ret {A : Type} (a : A) : M A := fun s => (a, s, []).

Definition bind {A B : Type} (m : M A) (k : A -> M B) : M B :=
  fun s =>
    let '(a, s1, t1) := m s in
    let '(b, s2, t2) := k a s1 in
    (b, s2, (t1 ++ t2)%list).

Definition get : M Session := fun s => (s, s, []).
Definition put (s : Session) : M unit := fun _ => (tt, s, []).
Definition emit (e : Event) : M unit := fun s => (tt, s, [e]).

Notation "x <- m ;; k" := (bind m (fun x => k))
  (at level 61, m at next level, right associativity).
Notation "m ;; k" := (bind m (fun _ => k))
  (at level 61, right associativity).

(** The four logging functions.  A call is recorded with its level; whether
    [log.Printf] then writes the line is the guard of the function,
    [currentLogLevel <= level], which [printed] computes. *)
Definition logDebug (msg : LogMsg) : M unit := emit (Log LogDebug msg).
Definition logInfo (msg : LogMsg) : M unit := emit (Log LogInfo msg).
Definition logWarn (msg : LogMsg) : M unit := emit (Log LogWarn msg).
Definition logError (msg : LogMsg) : M unit := emit (Log LogError msg).

(** The three projections of a run. *)
Definition value {A : Type} (r : A * Session * list Event) : A := fst (fst r).
Definition session {A : Type} (r : A * Session * list Event) : Session :=
  snd (fst r).
Definition trace {A : Type} (r : A * Session * list Event) : list Event :=
  snd r.

(** ** The program *)

(** [Backend.NewSession] *)
Definition NewSession (cfg : Config) (remote : string) : Session * list Event :=
  (mkSession cfg remote "" [], [Log LogDebug (msgNewSession remote)]).

Definition AuthPlain (username password : string) : M (option error) :=
  s <- get ;;
  logDebug (msgAuthAttempt (remoteAddr s)) ;;
  ret None.

(** The loop of [Mail] over [s.config.AllowedSenders]: the final value of
    [allowed]. *)
Fixpoint allowed (fromLower : string) (domains : list string) : bool :=
  match domains with
  | [] => false
  | domain :: rest =>
      if strings.HasSuffix fromLower ("@" ++ strings.ToLower domain)
         || strings.HasSuffix fromLower
              ("." ++ strings.ToLower domain ++ ">")
      then true
      else allowed fromLower rest
  end.

Definition Mail (sender : string) : M (option error) :=
  s <- get ;;
  let accept : M (option error) :=
    put (mkSession (config s) (remoteAddr s) sender (to s)) ;;
    logDebug (msgMailFrom sender) ;;
    ret None in
  if Nat.ltb 0 (List.length (AllowedSenders (config s))) then
    let fromLower := strings.ToLower sender in
    if negb (allowed fromLower (AllowedSenders (config s))) then
      logWarn (msgRejectedSender sender) ;;
      ret (Some (errorString "sender domain not allowed"))
    else accept
  else accept.

Definition Rcpt (rcpt : string) : M (option error) :=
  s <- get ;;
  put (mkSession (config s) (remoteAddr s) (from s) (to s ++ [rcpt])) ;;
  logDebug (msgRcptTo rcpt) ;;
  ret None.

Definition Reset : M unit :=
  s <- get ;;
  put (mkSession (config s) (remoteAddr s) "" []) ;;
  logDebug msgSessionReset.

Definition Logout : M (option error) :=
  s <- get ;;
  logDebug (msgLogout (remoteAddr s)) ;;
  ret None.

(** [maxLen] is an [int] in the source; its only call passes 50. *)
Definition truncate (s : string) (maxLen : nat) : string :=
  if Nat.leb (String.length s) maxLen then s
  else strings.slice_to s maxLen ++ "...".

Section Program.

Context {lib : GoLib}.

Definition decodeHeader (header : string) : string :=
  match WordDecoder_DecodeHeader header with
  | Err _ => header
  | Ok decoded => decoded
  end.

(** [mail.ParseAddress] with the raw-address fallback, as used for the sender
    and for every recipient. *)
Definition parseAddress (raw : string) : Address :=
  match mail_ParseAddress raw with
  | Ok addr => addr
  | Err _ => mkAddress "" (strings.Trim raw "<>")
  end.

(** The recipient loop of [sendViaSendGrid]. *)
Fixpoint addRecipients (p : Personalization) (rcpts : list string)
  : Personalization :=
  match rcpts with
  | [] => p
  | recipient :: rest =>
      let toAddr := parseAddress recipient in
      addRecipients (AddTos p (NewEmail (Addr_Name toAddr) (Addr_Address toAddr)))
        rest
  end.

(** The part loop of [handleMultipart]: the final [(textContent,
    htmlContent)], or the error of a failed [NextPart]. *)
Fixpoint readParts (mr : MultipartReader) (textContent htmlContent : string)
  : result (string * string) :=
  match mr with
  | MREOF => Ok (textContent, htmlContent)
  | MRError err => Err err
  | MRPart part next =>
      let partContentType := Header_Get (Part_Header part) "Content-Type" in
      match io_ReadAll (Part_Body part) with
      | Err _ => readParts next textContent htmlContent
      | Ok partBody =>
          if strings.Contains partContentType "text/plain" then
            readParts next partBody htmlContent
          else if strings.Contains partContentType "text/html" then
            readParts next textContent partBody
          else readParts next textContent htmlContent
      end
  end.

(** [handleMultipart] returns its error together with the message it was
    handed, as the pointer leaves it. *)
Definition handleMultipart (message : SGMailV3) (body contentType : string)
  : option error * SGMailV3 :=
  match mime_ParseMediaType contentType with
  | Err err => (Some err, message)
  | Ok (mediaType, params) =>
      if negb (strings.HasPrefix mediaType "multipart/") then
        (Some (errorString "not a multipart message"), message)
      else
        let boundary := Params_get params "boundary" in
        if boundary =? "" then
          (Some (errorString "no boundary found"), message)
        else
          let mr := multipart_NewReader body boundary in
          match readParts mr "" "" with
          | Err err => (Some err, message)
          | Ok (textContent, htmlContent) =>
              let message :=
                if negb (htmlContent =? "") then
                  AddContent message (NewContent "text/html" htmlContent)
                else message in
              let message :=
                if negb (textContent =? "") then
                  AddContent message (NewContent "text/plain" textContent)
                else message in
              if (textContent =? "") && (htmlContent =? "") then
                (Some (errorString "no text or html content found"), message)
              else (None, message)
          end
  end.

Definition sendViaSendGrid (sender : string) (rcpts : list string)
    (subject body contentType : string) : M (option error) :=
  let fromAddr := parseAddress sender in
  let message := NewV3Mail in
  let message :=
    SetFrom message (NewEmail (Addr_Name fromAddr) (Addr_Address fromAddr)) in
  let message := SetSubject message subject in
  let p := addRecipients NewPersonalization rcpts in
  let message := AddPersonalizations message p in
  message <-
    (if strings.Contains contentType "multipart/" then
       match handleMultipart message body contentType with
       | (Some err, message) =>
           logWarn (msgMultipartFallback err) ;;
           ret (AddContent message (NewContent "text/plain" body))
       | (None, message) => ret message
       end
     else if strings.Contains contentType "text/html" then
       ret (AddContent message (NewContent "text/html" body))
     else
       ret (AddContent message (NewContent "text/plain" body))) ;;
  s <- get ;;
  emit (ApiSend (SendGridAPIKey (config s)) message) ;;
  match SendClient_Send (SendGridAPIKey (config s)) message with
  | Err err => ret (Some (wrapError "sendgrid API error: " err))
  | Ok response =>
      if (400 <=? StatusCode response)%Z then
        logError (msgSendGridError (StatusCode response) (Body response)) ;;
        ret (Some (errorString
                     ("sendgrid returned status " ++ itoa (StatusCode response)
                      ++ ": " ++ Body response)))
      else
        logDebug (msgSendGridResponse (StatusCode response)) ;;
        ret None
  end.

Definition Data (r : Reader) : M (option error) :=
  match io_ReadAll r with
  | Err err =>
      logError (msgReadDataFailed err) ;;
      ret (Some (wrapError "failed to read email data: " err))
  | Ok data =>
      logDebug (msgReceived (String.length data)) ;;
      match mail_ReadMessage data with
      | Err err =>
          logError (msgParseFailed err) ;;
          ret (Some (wrapError "failed to parse email: " err))
      | Ok msg =>
          let subject := decodeHeader (Header_Get (Msg_Header msg) "Subject") in
          let sender := Header_Get (Msg_Header msg) "From" in
          let contentType := Header_Get (Msg_Header msg) "Content-Type" in
          logDebug (msgSubject subject) ;;
          logDebug (msgFromHeader sender) ;;
          logDebug (msgContentType contentType) ;;
          match io_ReadAll (Msg_Body msg) with
          | Err err =>
              logError (msgReadBodyFailed err) ;;
              ret (Some (wrapError "failed to read email body: " err))
          | Ok body =>
              s <- get ;;
              err <- sendViaSendGrid sender (to s) subject body contentType ;;
              match err with
              | Some err =>
                  logError (msgSendFailed err) ;;
                  ret (Some err)
              | None =>
                  s <- get ;;
                  logInfo (msgEmailSent (from s) (to s) (truncate subject 50)) ;;
                  ret None
              end
          end
      end
  end.

(** The three blocks of [sendViaSendGrid], named: the message before any
    content is attached, the content policy, and the call of the provider with
    the reading of its reply.  [sendViaSendGrid_blocks] below shows that
    [sendViaSendGrid] is their composition. *)
Definition newMessage (sender : string) (rcpts : list string) (subject : string)
  : SGMailV3 :=
  let fromAddr := parseAddress sender in
  AddPersonalizations
    (SetSubject
       (SetFrom NewV3Mail
          (NewEmail (Addr_Name fromAddr) (Addr_Address fromAddr)))
       subject)
    (addRecipients NewPersonalization rcpts).

Definition addBody (message : SGMailV3) (body contentType : string)
  : M SGMailV3 :=
  if strings.Contains contentType "multipart/" then
    match handleMultipart message body contentType with
    | (Some err, message) =>
        logWarn (msgMultipartFallback err) ;;
        ret (AddContent message (NewContent "text/plain" body))
    | (None, message) => ret message
    end
  else if strings.Contains contentType "text/html" then
    ret (AddContent message (NewContent "text/html" body))
  else
    ret (AddContent message (NewContent "text/plain" body)).

Definition deliver (message : SGMailV3) : M (option error) :=
  s <- get ;;
  emit (ApiSend (SendGridAPIKey (config s)) message) ;;
  match SendClient_Send (SendGridAPIKey (config s)) message with
  | Err err => ret (Some (wrapError "sendgrid API error: " err))
  | Ok response =>
      if (400 <=? StatusCode response)%Z then
        logError (msgSendGridError (StatusCode response) (Body response)) ;;
        ret (Some (errorString
                     ("sendgrid returned status " ++ itoa (StatusCode response)
                      ++ ": " ++ Body response)))
      else
        logDebug (msgSendGridResponse (StatusCode response)) ;;
        ret None
  end.

End Program.

(** What [sendViaSendGrid] returns for a reply of the provider: the three
    cases of the specification (transport error, status of 400 or more,
    status below 400). *)
Definition replyOutcome (reply : result Response) (v : option error) : Prop :=
  match reply with
  | Err err => v = Some (wrapError "sendgrid API error: " err)
  | Ok response =>
      if (400 <=? StatusCode response)%Z then
        v = Some (errorString
                    ("sendgrid returned status " ++ itoa (StatusCode response)
                     ++ ": " ++ Body response))
      else v = None
  end.

(** ** The protocol engine as a driver of the callbacks *)

(** The engine calls the callbacks of one session in some order; the program
    itself does not constrain it. *)
Inductive Command : Type :=
| cmdAuthPlain (username password : string)
| cmdMail (sender : string)
| cmdRcpt (rcpt : string)
| cmdData (r : Reader)
| cmdReset.

Definition step {lib : GoLib} (c : Command) : M (option error) :=
  match c with
  | cmdAuthPlain username password => AuthPlain username password
  | cmdMail sender => Mail sender
  | cmdRcpt rcpt => Rcpt rcpt
  | cmdData r => Data r
  | cmdReset => Reset ;; ret None
  end.

Fixpoint run {lib : GoLib} (cs : list Command) : M unit :=
  match cs with
  | [] => ret tt
  | c :: cs' => step c ;; run cs'
  end.

(** The recipients named by [RCPT] since the last [Reset], starting from
    [acc]. *)
Fixpoint envelopeRcpts (acc : list string) (cs : list Command) : list string :=
  match cs with
  | [] => acc
  | cmdRcpt rcpt :: cs' => envelopeRcpts (acc ++ [rcpt]) cs'
  | cmdReset :: cs' => envelopeRcpts [] cs'
  | _ :: cs' => envelopeRcpts acc cs'
  end.

(** ** Vocabulary of the specification *)

(** [noAt s]: the byte ["@"] does not occur in [s]. *)
Definition noAt (s : string) : Prop := strings.IndexByte s "@"%char = false.

(** The stored sender is empty, or no allow-list is configured, or the sender
    passed the loop of [Mail]. *)
Definition senderChecked (s : Session) : Prop :=
  from s = "" \/ AllowedSenders (config s) = [] \/
  allowed (strings.ToLower (from s)) (AllowedSenders (config s)) = true.

(** Case-insensitive equality of two domain names. *)
Definition equalFold (x d : string) : Prop :=
  strings.ToLower x = strings.ToLower d.

(** The number of characters of a UTF-8 string: its bytes that are not
    continuation bytes (0x80 .. 0xbf). *)
Fixpoint utf8Chars (s : string) : nat :=
  match s with
  | EmptyString => 0
  | String c s' =>
      let n := nat_of_ascii c in
      if Nat.leb 128 n && Nat.leb n 191 then utf8Chars s'
      else S (utf8Chars s')
  end.

(** [n] copies of [s]. *)
Fixpoint repeatString (s : string) (n : nat) : string :=
  match n with
  | O => ""
  | S n' => s ++ repeatString s n'
  end.

(** How the part loop treats a part, by its own Content-Type. *)
Inductive PartKind : Type := kindPlain | kindHtml | kindOther.

Definition partKind (p : Part) : PartKind :=
  let partContentType := Header_Get (Part_Header p) "Content-Type" in
  if strings.Contains partContentType "text/plain" then kindPlain
  else if strings.Contains partContentType "text/html" then kindHtml
  else kindOther.

Definition PartKind_eqb (a b : PartKind) : bool :=
  match a, b with
  | kindPlain, kindPlain | kindHtml, kindHtml | kindOther, kindOther => true
  | _, _ => false
  end.

(** The last part of kind [k], in part order. *)
Fixpoint lastOfKind (k : PartKind) (parts : list Part) : option Part :=
  match parts with
  | [] => None
  | p :: rest =>
      match lastOfKind k rest with
      | Some q => Some q
      | None => if PartKind_eqb (partKind p) k then Some p else None
      end
  end.

(** A part whose body reads without error. *)
Definition textPart (contentType body : string) : Part :=
  mkPart [("Content-Type", [contentType])] (bytesReader body).

Definition partBody (p : Part) : result string := io_ReadAll (Part_Body p).

(** The reader of a well-formed body: its parts, then [io.EOF]. *)
Fixpoint readerOf (parts : list Part) : MultipartReader :=
  match parts with
  | [] => MREOF
  | p :: rest => MRPart p (readerOf rest)
  end.

(** ** Concrete messages and library behaviour for the examples *)

Module Examples.

Definition CRLF : string := String "013"%char (String "010"%char "").

Definition okAddress (a : string) : result Address := Ok (mkAddress "" a).

(** [mail.ParseAddress] on the addresses used below; [""] and the other
    strings of the examples are not addresses ("mail: no address"). *)
Definition ParseAddress (raw : string) : result Address :=
  if (raw =? "a@b.com") || (raw =? "c@d.com") then okAddress raw
  else Err (errorString "mail: no address").

(** [mime.ParseMediaType] on the content types used below. *)
Definition ParseMediaType (v : string) : result (string * Params) :=
  if v =? "multipart/mixed" then Ok ("multipart/mixed", [])
  else if v =? "multipart/alternative; boundary=b" then
    Ok ("multipart/alternative", [("boundary", "b")])
  else if v =? "text/plain" then Ok ("text/plain", [])
  else Err (errorString "mime: no media type").

(** A multipart/alternative body whose text/plain part is empty. *)
Definition emptyTextBody : string :=
  "--b" ++ CRLF ++ "Content-Type: text/plain" ++ CRLF ++ CRLF
  ++ CRLF ++ "--b" ++ CRLF ++ "Content-Type: text/html" ++ CRLF ++ CRLF
  ++ "<p>hi</p>"
  ++ CRLF ++ "--b--" ++ CRLF.

(** A multipart/alternative body with a text and an html part. *)
Definition bothBody : string :=
  "--b" ++ CRLF ++ "Content-Type: text/plain" ++ CRLF ++ CRLF
  ++ "hi"
  ++ CRLF ++ "--b" ++ CRLF ++ "Content-Type: text/html" ++ CRLF ++ CRLF
  ++ "<p>hi</p>"
  ++ CRLF ++ "--b--" ++ CRLF.

Definition emptyTextParts : list Part :=
  [textPart "text/plain" ""; textPart "text/html" "<p>hi</p>"].

Definition bothParts : list Part :=
  [textPart "text/plain" "hi"; textPart "text/html" "<p>hi</p>"].

(** [multipart.NewReader] on the two bodies above; on an empty body the first
    [NextPart] fails ("multipart: NextPart: EOF"). *)
Definition NewReader (body boundary : string) : MultipartReader :=
  if (body =? emptyTextBody) && (boundary =? "b") then readerOf emptyTextParts
  else if (body =? bothBody) && (boundary =? "b") then readerOf bothParts
  else MRError (errorString "multipart: NextPart: EOF").

(** A message [From: a@b.com], [Subject: Hi] with the given Content-Type. *)
Definition rawMessage (contentType body : string) : string :=
  "From: a@b.com" ++ CRLF ++ "Subject: Hi" ++ CRLF
  ++ "Content-Type: " ++ contentType ++ CRLF ++ CRLF ++ body.

Definition parsedMessage (contentType body : string) : Message :=
  mkMessage [("From", ["a@b.com"]); ("Subject", ["Hi"]);
             ("Content-Type", [contentType])]
            (bytesReader body).

(** The same message without a [From] header. *)
Definition rawNoFrom : string :=
  "Subject: Hi" ++ CRLF ++ "Content-Type: text/plain" ++ CRLF ++ CRLF
  ++ "hello".

Definition parsedNoFrom : Message :=
  mkMessage [("Subject", ["Hi"]); ("Content-Type", ["text/plain"])]
            (bytesReader "hello").

(** Twenty-six times the two-byte character U+00E9. *)
Definition accentedSubject : string :=
  repeatString (String "195"%char (String "169"%char "")) 26.

(** A message whose subject is [accentedSubject], sent as raw UTF-8. *)
Definition rawAccented : string :=
  "From: a@b.com" ++ CRLF ++ "Subject: " ++ accentedSubject ++ CRLF
  ++ "Content-Type: text/plain" ++ CRLF ++ CRLF ++ "hello".

Definition parsedAccented : Message :=
  mkMessage [("From", ["a@b.com"]); ("Subject", [accentedSubject]);
             ("Content-Type", ["text/plain"])]
            (bytesReader "hello").

(** [mail.ReadMessage] on the messages used below. *)
Definition ReadMessage (data : string) : result Message :=
  if data =? rawAccented then Ok parsedAccented
  else if data =? rawMessage "text/plain" "hello" then
    Ok (parsedMessage "text/plain" "hello")
  else if data =? rawMessage "multipart/mixed" "" then
    Ok (parsedMessage "multipart/mixed" "")
  else if data =? rawMessage "multipart/alternative; boundary=b" emptyTextBody
  then Ok (parsedMessage "multipart/alternative; boundary=b" emptyTextBody)
  else if data =? rawMessage "multipart/alternative; boundary=b" bothBody
  then Ok (parsedMessage "multipart/alternative; boundary=b" bothBody)
  else if data =? rawNoFrom then Ok parsedNoFrom
  else Err (errorString "mail: malformed message").

(** The library, with a provider that answers every request by [reply].
    The headers of the examples hold no encoded word, so [DecodeHeader]
    returns them as they are. *)
Definition golib (reply : result Response) : GoLib :=
  {| mail_ReadMessage := ReadMessage;
     WordDecoder_DecodeHeader := fun header => Ok header;
     mail_ParseAddress := ParseAddress;
     mime_ParseMediaType := ParseMediaType;
     multipart_NewReader := NewReader;
     SendClient_Send := fun _ _ => reply |}.

Definition accepted202 : result Response := Ok (mkResponse 202 "").
Definition rateLimited500 : result Response := Ok (mkResponse 500 "rate limited").
Definition transportDown : result Response :=
  Err (errorString "dial tcp: connection refused").

Definition relayConfig (allowedSenders : list string) : Config :=
  mkConfig "SG.key" ":25" "localhost" "info" allowedSenders.

Definition freshSession (allowedSenders : list string) : Session :=
  fst (NewSession (relayConfig allowedSenders) "10.0.0.7:40000").

End Examples.

(** ** Start-up: [loadConfig] and the log level *)

(** The loop of [loadConfig] over the pieces of ALLOWED_SENDERS. *)
Fixpoint appendSenders (acc : list string) (pieces : list string)
  : list string :=
  match pieces with
  | [] => acc
  | sender :: rest =>
      let sender := strings.TrimSpace sender in
      if negb (sender =? "") then appendSenders (acc ++ [sender]) rest
      else appendSenders acc rest
  end.

(** [loadConfig], over the process environment [Getenv] ([os.Getenv]: the
    value of a variable, [""] when it is not set). *)
Definition loadConfig (Getenv : string -> string) : result Config :=
  let config :=
    mkConfig (Getenv "SENDGRID_API_KEY") (Getenv "SMTP_LISTEN_ADDR")
      (Getenv "SMTP_DOMAIN") (Getenv "LOG_LEVEL") [] in
  if SendGridAPIKey config =? "" then
    Err (errorString "SENDGRID_API_KEY environment variable is required")
  else
    let config :=
      if ListenAddr config =? "" then
        mkConfig (SendGridAPIKey config) ":25" (Domain config)
          (LogLevel_ config) (AllowedSenders config)
      else config in
    let config :=
      if Domain config =? "" then
        mkConfig (SendGridAPIKey config) (ListenAddr config) "localhost"
          (LogLevel_ config) (AllowedSenders config)
      else config in
    let config :=
      if LogLevel_ config =? "" then
        mkConfig (SendGridAPIKey config) (ListenAddr config) (Domain config)
          "info" (AllowedSenders config)
      else config in
    let allowedSenders := Getenv "ALLOWED_SENDERS" in
    let config :=
      if negb (allowedSenders =? "") then
        mkConfig (SendGridAPIKey config) (ListenAddr config) (Domain config)
          (LogLevel_ config)
          (appendSenders (AllowedSenders config)
             (strings.Split allowedSenders ","))
      else config in
    Ok config.

(** The level [main] stores in [currentLogLevel]. *)
Definition startLogLevel (config : Config) : LogLevel :=
  parseLogLevel (LogLevel_ config).

(** ** Further vocabulary *)

(** Every byte of [s] is one of [cutset]. *)
Fixpoint onlyBytes (cutset s : string) : bool :=
  match s with
  | EmptyString => true
  | String c s' => strings.IndexByte cutset c && onlyBytes cutset s'
  end.

(** The entry of the request for one recipient string. *)
Definition toEmail {lib : GoLib} (recipient : string) : Email :=
  let toAddr := parseAddress recipient in
  NewEmail (Addr_Name toAddr) (Addr_Address toAddr).

(** The parts whose body reads without error. *)
Definition readable (p : Part) : bool :=
  match partBody p with
  | Ok _ => true
  | Err _ => false
  end.

(** The body of the last readable part of kind [k], [""] when there is
    none. *)
Definition candidate (k : PartKind) (parts : list Part) : string :=
  match lastOfKind k (filter readable parts) with
  | Some p => match partBody p with Ok b => b | Err _ => "" end
  | None => ""
  end.

(** A reader that yields [parts] and then fails with [err]. *)
Fixpoint failingAfter (parts : list Part) (err : error) : MultipartReader :=
  match parts with
  | [] => MRError err
  | p :: rest => MRPart p (failingAfter rest err)
  end.

Definition isAuthPlain (c : Command) : bool :=
  match c with
  | cmdAuthPlain _ _ => true
  | _ => false
  end.

Definition isData (c : Command) : bool :=
  match c with
  | cmdData _ => true
  | _ => false
  end.

(** The API keys under which the requests of a trace were submitted. *)
Fixpoint apiKeys (tr : list Event) : list string :=
  match tr with
  | [] => []
  | ApiSend apiKey _ :: tr' => apiKey :: apiKeys tr'
  | Log _ _ :: tr' => apiKeys tr'
  end.

(** An environment given by a list of settings. *)
Fixpoint envOf (settings : list (string * string)) (key : string) : string :=
  match settings with
  | [] => ""
  | (k, v) :: rest => if k =? key then v else envOf rest key
  end.

(** ** ASCII strings and the call order of the protocol engine *)

(** Every byte of [s] is below 0x80.  On such strings [strings.ToLower] and
    [strings.TrimSpace] as modelled above are Go's functions exactly; the
    theorems that compute with them on arbitrary input are stated for ASCII
    strings. *)
Fixpoint isASCII (s : string) : bool :=
  match s with
  | EmptyString => true
  | String c s' => Nat.ltb (nat_of_ascii c) 128 && isASCII s'
  end.

(** The sender a command passes to [Mail], if it is a [MAIL], is ASCII. *)
Definition asciiSender (c : Command) : bool :=
  match c with
  | cmdMail sender => isASCII sender
  | _ => true
  end.

(** A callback returned no error. *)
Definition accepts (v : option error) : bool :=
  match v with
  | None => true
  | Some _ => false
  end.

(** Modelled from the spec: the call order the protocol engine keeps (the
    state machine of section 4.4; the engine is an external library, and
    refuses DATA before an accepted MAIL and a RCPT).  [Data] is called only
    when, since the last [Reset] or the start of the session, a [Mail] call
    has returned no error ([mailAccepted]) and [Rcpt] has been called
    ([rcptReceived]).  No other call is constrained. *)
Fixpoint callOrder {lib : GoLib} (mailAccepted rcptReceived : bool)
    (cs : list Command) (s : Session) : bool :=
  match cs with
  | [] => true
  | c :: cs' =>
      let s' := session (step c s) in
      match c with
      | cmdMail sender =>
          callOrder (mailAccepted || accepts (value (Mail sender s)))
            rcptReceived cs' s'
      | cmdRcpt _ => callOrder mailAccepted true cs' s'
      | cmdData _ =>
          mailAccepted && rcptReceived
          && callOrder mailAccepted rcptReceived cs' s'
      | cmdReset => callOrder false false cs' s'
      | cmdAuthPlain _ _ => callOrder mailAccepted rcptReceived cs' s'
      end
  end.

(** A message cut off in the middle of its second part: the first part
    reads, the second does not, and the next [NextPart] fails. *)
Module Truncated.

Definition body : string :=
  "--b" ++ Examples.CRLF ++ "Content-Type: text/plain" ++ Examples.CRLF
  ++ Examples.CRLF ++ "hi"
  ++ Examples.CRLF ++ "--b" ++ Examples.CRLF ++ "Content-Type: text/html"
  ++ Examples.CRLF ++ Examples.CRLF ++ "<p>hi".

Definition parts : list Part :=
  [textPart "text/plain" "hi";
   mkPart [("Content-Type", ["text/html"])]
          (failingReader (errorString "unexpected EOF"))].

Definition nextPartError : error := errorString "multipart: NextPart: EOF".

Definition NewReader (data boundary : string) : MultipartReader :=
  if (data =? body) && (boundary =? "b") then failingAfter parts nextPartError
  else Examples.NewReader data boundary.

Definition golib (reply : result Response) : GoLib :=
  {| mail_ReadMessage := Examples.ReadMessage;
     WordDecoder_DecodeHeader := fun header => Ok header;
     mail_ParseAddress := Examples.ParseAddress;
     mime_ParseMediaType := Examples.ParseMediaType;
     multipart_NewReader := NewReader;
     SendClient_Send := fun _ _ => reply |}.

End Truncated.

(** * Properties *)

(** ** Strings *)

Section StringFacts.

Import strings.

Example HasSuffix_examples :
  HasSuffix "user@trusted.com" "@trusted.com" = true /\
  HasSuffix "user@nottrusted.com" "@trusted.com" = false /\
  HasSuffix "com" "@trusted.com" = false.
Proof. repeat split. Qed.

Example Contains_examples :
  Contains "multipart/mixed; boundary=b" "multipart/" = true /\
  Contains "Multipart/Mixed" "multipart/" = false /\
  Contains "text/html; charset=utf-8" "text/html" = true /\
  Contains "" "text/html" = false.
Proof. repeat split. Qed.

Example Trim_examples :
  Trim "<a@b.com>" "<>" = "a@b.com" /\
  Trim "<<a@b>>x>" "<>" = "a@b>>x" /\
  Trim "Ann <a@b.com>" "<>" = "Ann <a@b.com" /\
  Trim "" "<>" = "".
Proof. repeat split. Qed.

Example ToLower_examples :
  ToLower "User@Trusted.COM" = "user@trusted.com" /\
  ToLower "[A-Z]@{`}" = "[a-z]@{`}".
Proof. repeat split. Qed.

Example truncate_examples :
  truncate "Hi" 50 = "Hi" /\
  truncate "0123456789" 10 = "0123456789" /\
  truncate "0123456789x" 10 = "0123456789...".
Proof. repeat split. Qed.

Lemma length_app (a b : string) :
  String.length (a ++ b) = String.length a + String.length b.
Proof. induction a as [|c a IH]; simpl; [reflexivity | now rewrite IH]. Qed.

Lemma app_assoc_s (a b c : string) : (a ++ b) ++ c = a ++ (b ++ c).
Proof. induction a as [|x a IH]; simpl; [reflexivity | now rewrite IH]. Qed.

Lemma app_empty_r (a : string) : a ++ "" = a.
Proof. induction a as [|x a IH]; simpl; [reflexivity | now rewrite IH]. Qed.

Lemma slice_split (s : string) (n : nat) : slice_to s n ++ slice_from s n = s.
Proof.
  revert s; induction n as [|n IH]; intros [|c s]; simpl; try reflexivity.
  now rewrite IH.
Qed.

Lemma slice_to_length (s : string) (n : nat) :
  n <= String.length s -> String.length (slice_to s n) = n.
Proof.
  revert s; induction n as [|n IH]; intros [|c s]; simpl; intros H;
    try reflexivity; try lia.
  rewrite IH; [reflexivity | lia].
Qed.

Lemma slice_from_app (p s : string) : slice_from (p ++ s) (String.length p) = s.
Proof. induction p as [|c p IH]; simpl; [now destruct s | exact IH]. Qed.

Lemma slice_to_app (p s : string) : slice_to (p ++ s) (String.length p) = p.
Proof. induction p as [|c p IH]; simpl; [now destruct s | now rewrite IH]. Qed.

(** [HasSuffix] decides "ends with". *)
Lemma HasSuffix_spec (s suffix : string) :
  HasSuffix s suffix = true <-> exists p, s = p ++ suffix.
Proof.
  unfold HasSuffix; split.
  - intros H; apply andb_prop in H as [_ H]. apply String.eqb_eq in H.
    remember (String.length s - String.length suffix) as n eqn:Hn.
    exists (slice_to s n). rewrite <- H. symmetry; apply slice_split.
  - intros [p ->]. rewrite length_app.
    replace (String.length p + String.length suffix - String.length suffix)
      with (String.length p) by lia.
    rewrite slice_from_app, String.eqb_refl, andb_true_r.
    apply Nat.leb_le; lia.
Qed.

(** [HasPrefix] decides "starts with". *)
Lemma HasPrefix_spec (s prefix : string) :
  HasPrefix s prefix = true <-> exists r, s = prefix ++ r.
Proof.
  unfold HasPrefix; split.
  - intros H; apply andb_prop in H as [_ H]. apply String.eqb_eq in H.
    remember (String.length prefix) as n eqn:Hn.
    exists (slice_from s n). rewrite <- H. symmetry; apply slice_split.
  - intros [r ->]. rewrite length_app, slice_to_app, String.eqb_refl, andb_true_r.
    apply Nat.leb_le; lia.
Qed.

Lemma ToLower_app (a b : string) : ToLower (a ++ b) = ToLower a ++ ToLower b.
Proof. induction a as [|c a IH]; simpl; [reflexivity | now rewrite IH]. Qed.

Lemma lower_byte_at (c : ascii) : lower_byte c = "@"%char <-> c = "@"%char.
Proof.
  destruct c as [[] [] [] [] [] [] [] []]; vm_compute; split; congruence.
Qed.

Lemma noAt_cons (c : ascii) (s : string) :
  noAt (String c s) <-> "@"%char <> c /\ noAt s.
Proof.
  unfold noAt; cbn [IndexByte].
  destruct (Ascii.eqb_spec "@"%char c) as [E|E]; cbn [orb].
  - split; [intros H; discriminate H | intros [H _]; now elim H].
  - split; [intros H; now split | now intros [_ H]].
Qed.

Lemma noAt_app (a b : string) : noAt (a ++ b) <-> noAt a /\ noAt b.
Proof.
  induction a as [|c a IH]; simpl.
  - split; [intros H; split; [reflexivity | exact H] | now intros [_ H]].
  - rewrite !noAt_cons, IH. tauto.
Qed.

Lemma noAt_ToLower (s : string) : noAt (ToLower s) <-> noAt s.
Proof.
  induction s as [|c s IH]; simpl; [tauto|].
  rewrite !noAt_cons, IH.
  assert ("@"%char <> lower_byte c <-> "@"%char <> c) as ->; [|tauto].
  split; intros H E; apply H.
  - now subst c.
  - symmetry; apply lower_byte_at; now symmetry.
Qed.

(** A string is cut in one way only at its last ["@"]. *)
Lemma last_at_unique (a b c d : string) :
  noAt b -> noAt d -> a ++ String "@" b = c ++ String "@" d -> a = c /\ b = d.
Proof.
  intros Hb Hd; revert c; induction a as [|x a IH]; intros [|y c]; simpl; intros E.
  - injection E as ->; now split.
  - injection E as <- ->. apply noAt_app in Hb as [_ Hb].
    apply noAt_cons in Hb as [Hb _]; now elim Hb.
  - injection E as -> <-. apply noAt_app in Hd as [_ Hd].
    apply noAt_cons in Hd as [Hd _]; now elim Hd.
  - injection E as -> E. destruct (IH _ E) as [-> ->]; now split.
Qed.

(** A suffix without ["@"] lies behind the last ["@"]. *)
Lemma suffix_behind_at (a b p w : string) :
  noAt w -> a ++ String "@" b = p ++ w -> exists q, b = q ++ w.
Proof.
  intros Hw; revert p; induction a as [|x a IH]; intros [|y p]; simpl; intros E.
  - subst w. apply noAt_cons in Hw as [Hw _]; now elim Hw.
  - injection E as _ ->. now exists p.
  - subst w. apply noAt_cons in Hw as [_ Hw]. apply noAt_app in Hw as [_ Hw].
    apply noAt_cons in Hw as [Hw _]; now elim Hw.
  - injection E as _ E. exact (IH _ E).
Qed.

Lemma lower_byte_gt (c : ascii) : lower_byte c = ">"%char <-> c = ">"%char.
Proof.
  destruct c as [[] [] [] [] [] [] [] []]; vm_compute; split; congruence.
Qed.

(** The last byte of a lowered string is the lowered last byte. *)
Lemma ToLower_last (x a : string) (g : ascii) :
  ToLower x = a ++ String g "" ->
  exists x' c, x = x' ++ String c "" /\ lower_byte c = g.
Proof.
  revert a; induction x as [|c x IH]; intros [|y a]; cbn [ToLower append];
    intros E; try discriminate E.
  - injection E as E1 E2. destruct x; [|discriminate E2].
    now exists "", c.
  - injection E as _ E. destruct (IH _ E) as (x' & c' & -> & H).
    now exists (String c x'), c'.
Qed.

(** A string that does not end with [">"] fails the second suffix test. *)
Lemma dot_suffix_needs_bracket (x d : string) :
  HasSuffix x ">" = false ->
  HasSuffix (ToLower x) ("." ++ ToLower d ++ ">") = false.
Proof.
  intros Hx. destruct (HasSuffix (ToLower x) _) eqn:H; [|reflexivity].
  apply HasSuffix_spec in H as [p E].
  change ("." ++ ToLower d ++ ">") with (String "." (ToLower d) ++ ">") in E.
  rewrite <- app_assoc_s in E.
  apply ToLower_last in E as (x' & c & Ex & Hc).
  apply (proj1 (lower_byte_gt c)) in Hc.
  assert (HasSuffix x ">" = true) as Ht
      by (apply HasSuffix_spec; exists x'; now rewrite Ex, Hc).
  rewrite Ht in Hx. discriminate Hx.
Qed.

End StringFacts.

(** ** Logging *)

(** A warning is printed at every configured level but "error"; an error
    record is printed at every level. *)
Lemma printed_levels (currentLogLevel : LogLevel) (msg : LogMsg) :
  (printed currentLogLevel (Log LogWarn msg) = true <->
   currentLogLevel <> LogError) /\
  printed currentLogLevel (Log LogError msg) = true.
Proof.
  destruct currentLogLevel; cbn; repeat split; congruence.
Qed.

(** ** The envelope: [Mail], [Rcpt], [Reset] *)

Section Envelope.

Import strings.

(** The loop of [Mail] finds a domain when one of the two suffix tests holds
    for some member of the list. *)
Lemma allowed_spec (fromLower : string) (domains : list string) :
  allowed fromLower domains = true <->
  exists d, In d domains /\
    (HasSuffix fromLower ("@" ++ ToLower d) = true \/
     HasSuffix fromLower ("." ++ ToLower d ++ ">") = true).
Proof.
  induction domains as [|d0 ds IH]; cbn [allowed].
  - split; [discriminate | intros (d & [] & _)].
  - destruct (HasSuffix fromLower ("@" ++ ToLower d0)) eqn:Ea; cbn [orb].
    + split; [intros _ | reflexivity]. exists d0; split; [now left | now left].
    + destruct (HasSuffix fromLower ("." ++ ToLower d0 ++ ">")) eqn:Eb.
      * split; [intros _ | reflexivity].
        exists d0; split; [now left | now right].
      * rewrite IH; split.
        -- intros (d & Hd & H); exists d; split; [now right | exact H].
        -- intros (d & [<- | Hd] & H).
           ++ rewrite Ea, Eb in H; destruct H; discriminate.
           ++ exists d; now split.
Qed.

(** One run of [Mail], read off its two exits. *)
Lemma Mail_run (s : Session) (sender : string) :
  Mail sender s =
  if Nat.ltb 0 (List.length (AllowedSenders (config s)))
     && negb (allowed (ToLower sender) (AllowedSenders (config s)))
  then (Some (errorString "sender domain not allowed"), s,
        [Log LogWarn (msgRejectedSender sender)])
  else (None, mkSession (config s) (remoteAddr s) sender (to s),
        [Log LogDebug (msgMailFrom sender)]).
Proof.
  unfold Mail, bind, get.
  destruct (Nat.ltb 0 (List.length (AllowedSenders (config s)))); cbn [andb];
    [destruct (negb _)|]; reflexivity.
Qed.

Lemma nonempty_ltb {A : Type} (l : list A) :
  l <> [] -> Nat.ltb 0 (List.length l) = true.
Proof. destruct l; [congruence | reflexivity]. Qed.

(** With ["@"]-free domain names the first suffix test is equality of the
    lowered domains. *)
Lemma at_suffix_is_equality (user x d : string) :
  noAt x -> noAt d ->
  HasSuffix (ToLower (user ++ "@" ++ x)) ("@" ++ ToLower d) = true <->
  equalFold x d.
Proof.
  intros Hx Hd. rewrite HasSuffix_spec, ToLower_app. cbn [ToLower append].
  change (lower_byte "@") with "@"%char. unfold equalFold; split.
  - intros [p E]. apply last_at_unique in E as [_ E];
      [exact E | now apply noAt_ToLower ..].
  - intros ->. now exists (ToLower user).
Qed.

(** The second suffix test only looks behind the last ["@"]. *)
Lemma dot_suffix_behind_at (user x d : string) :
  noAt d ->
  HasSuffix (ToLower (user ++ "@" ++ x)) ("." ++ ToLower d ++ ">") = true <->
  HasSuffix (ToLower x) ("." ++ ToLower d ++ ">") = true.
Proof.
  intros Hd. rewrite !HasSuffix_spec, ToLower_app. cbn [ToLower append].
  change (lower_byte "@") with "@"%char. split.
  - intros [p E]. apply suffix_behind_at in E; [exact E|].
    apply noAt_cons; split; [discriminate|].
    apply noAt_app; split; [now apply noAt_ToLower | reflexivity].
  - intros [q ->]. exists (ToLower user ++ String "@" q).
    now rewrite app_assoc_s.
Qed.

(** C2.  [Mail] accepts every sender when no allow-list is configured.  With an
    allow-list D of ASCII domain names without ["@"], and for an ASCII sender
    [user@x] whose domain [x] (the part behind the last ["@"]) does not end
    with [">"], [Mail] accepts exactly when [x] equals some member of D up to
    letter case.  On acceptance the raw sender string becomes the session's
    sender and the recipient list is kept. *)
Theorem Mail_allow_list (s : Session) (user x : string) :
  (AllowedSenders (config s) = [] ->
   forall sender, value (Mail sender s) = None) /\
  (AllowedSenders (config s) <> [] ->
   isASCII user = true -> isASCII x = true -> noAt x ->
   HasSuffix x ">" = false ->
   Forall (fun d => isASCII d = true /\ noAt d) (AllowedSenders (config s)) ->
   (value (Mail (user ++ "@" ++ x) s) = None <->
    exists d, In d (AllowedSenders (config s)) /\ equalFold x d)) /\
  (forall sender,
      value (Mail sender s) = None ->
      session (Mail sender s)
      = mkSession (config s) (remoteAddr s) sender (to s)).
Proof.
  split; [|split].
  - intros E sender. rewrite Mail_run, E. reflexivity.
  - intros HD _ _ Hx Hgt Hall. rewrite Mail_run, (nonempty_ltb _ HD).
    cbn [andb].
    assert (forall d, In d (AllowedSenders (config s)) -> noAt d) as Hnd.
    { intros d Hd. rewrite Forall_forall in Hall. now apply Hall. }
    destruct (allowed _ _) eqn:Ea; cbn [negb value fst].
    + apply allowed_spec in Ea as (d & Hd & H). split; [intros _ | reflexivity].
      exists d; split; [exact Hd|]. destruct H as [H | H].
      * now apply (at_suffix_is_equality user x d Hx (Hnd d Hd)).
      * apply (dot_suffix_behind_at user x d (Hnd d Hd)) in H.
        rewrite (dot_suffix_needs_bracket x d Hgt) in H. discriminate H.
    + split; [discriminate|]. intros (d & Hd & H).
      assert (allowed (ToLower (user ++ "@" ++ x)) (AllowedSenders (config s))
              = true) as Ht; [|congruence].
      apply allowed_spec; exists d; split; [exact Hd|]. left.
      now apply at_suffix_is_equality; [| apply Hnd |].
  - intros sender. rewrite Mail_run.
    destruct (_ && _); cbn [value session fst snd]; [discriminate | reflexivity].
Qed.

(** C2 under the allow-list [trusted.com], for the sender
    [user@Trusted.COM]. *)
Lemma Mail_allow_list_witness :
  value (Mail ("user" ++ "@" ++ "Trusted.COM")
           (Examples.freshSession ["trusted.com"])) = None /\
  session (Mail ("user" ++ "@" ++ "Trusted.COM")
             (Examples.freshSession ["trusted.com"])) =
  mkSession (Examples.relayConfig ["trusted.com"]) "10.0.0.7:40000"
    "user@Trusted.COM" [].
Proof.
  pose proof (Mail_allow_list (Examples.freshSession ["trusted.com"])
                "user" "Trusted.COM") as (_ & H & Hs).
  assert (value (Mail ("user" ++ "@" ++ "Trusted.COM")
                   (Examples.freshSession ["trusted.com"])) = None) as Hv.
  { apply H.
    - discriminate.
    - reflexivity.
    - reflexivity.
    - reflexivity.
    - reflexivity.
    - repeat constructor.
    - exists "trusted.com"; split; [now left | reflexivity]. }
  split; [exact Hv | exact (Hs _ Hv)].
Defined.

(** C7.  When an allow-list is configured and the loop of [Mail] finds no
    matching domain, [Mail] returns the error "sender domain not allowed" and
    the session is exactly what it was: stored sender and recipient list are
    untouched.  More generally, [Mail] never changes the session when it
    returns an error. *)
Theorem Mail_rejected_session_unchanged (s : Session) (sender : string) :
  (AllowedSenders (config s) <> [] ->
   allowed (ToLower sender) (AllowedSenders (config s)) = false ->
   value (Mail sender s) = Some (errorString "sender domain not allowed") /\
   session (Mail sender s) = s /\
   from (session (Mail sender s)) = from s /\
   to (session (Mail sender s)) = to s) /\
  (forall err, value (Mail sender s) = Some err -> session (Mail sender s) = s).
Proof.
  rewrite Mail_run; split.
  - intros HD Ha. rewrite (nonempty_ltb _ HD), Ha. cbn. auto.
  - intros err. destruct (_ && _); cbn; [reflexivity | discriminate].
Qed.

(** C7 on scenario B of the specification: allow-list [trusted.com], sender
    [x@evil.com], on a session that already holds an envelope. *)
Lemma Mail_rejected_session_unchanged_witness :
  value (Mail "x@evil.com"
           (mkSession (Examples.relayConfig ["trusted.com"]) "10.0.0.7:40000"
              "a@trusted.com" ["c@d.com"]))
  = Some (errorString "sender domain not allowed") /\
  session (Mail "x@evil.com"
             (mkSession (Examples.relayConfig ["trusted.com"]) "10.0.0.7:40000"
                "a@trusted.com" ["c@d.com"]))
  = mkSession (Examples.relayConfig ["trusted.com"]) "10.0.0.7:40000"
      "a@trusted.com" ["c@d.com"].
Proof.
  destruct (Mail_rejected_session_unchanged
              (mkSession (Examples.relayConfig ["trusted.com"]) "10.0.0.7:40000"
                 "a@trusted.com" ["c@d.com"]) "x@evil.com") as [H _].
  destruct H as (Hv & Hs & _); [discriminate | reflexivity |].
  split; [exact Hv | exact Hs].
Defined.

(** C9.  [Reset] empties the stored sender and the recipient list and keeps
    the configuration and the remote address, whatever the session held; the
    session is then the one [NewSession] creates for that connection, so the
    next transaction starts from an empty envelope. *)
Theorem Reset_clears_envelope (s : Session) :
  from (session (Reset s)) = "" /\
  to (session (Reset s)) = [] /\
  config (session (Reset s)) = config s /\
  remoteAddr (session (Reset s)) = remoteAddr s /\
  session (Reset s) = fst (NewSession (config s) (remoteAddr s)).
Proof. repeat split. Qed.

End Envelope.

(** ** Translation: [handleMultipart] and [sendViaSendGrid] *)

Section Translation.

Import strings.
Context {lib : GoLib}.

Lemma sendViaSendGrid_blocks (sender : string) (rcpts : list string)
    (subject body contentType : string) :
  sendViaSendGrid sender rcpts subject body contentType =
  (message <- addBody (newMessage sender rcpts subject) body contentType ;;
   deliver message).
Proof. reflexivity. Qed.

(** [handleMultipart] attaches nothing when it fails. *)
Lemma handleMultipart_error_keeps (m m' : SGMailV3) (body ct : string)
    (err : error) :
  handleMultipart m body ct = (Some err, m') -> m' = m.
Proof.
  unfold handleMultipart.
  destruct (mime_ParseMediaType ct) as [[mediaType params]|e];
    [|now intros [= _ <-]].
  destruct (negb (HasPrefix mediaType "multipart/")); [now intros [= _ <-]|].
  destruct (Params_get params "boundary" =? ""); [now intros [= _ <-]|].
  destruct (readParts _ "" "") as [[t h]|e]; [|now intros [= _ <-]].
  destruct (t =? "") eqn:Et, (h =? "") eqn:Eh; cbn; intros [= _ <-];
    try discriminate.
  reflexivity.
Qed.

(** Whether [handleMultipart] fails does not depend on the message. *)
Lemma handleMultipart_error_indep (m1 m2 : SGMailV3) (body ct : string) :
  fst (handleMultipart m1 body ct) = fst (handleMultipart m2 body ct).
Proof.
  unfold handleMultipart.
  destruct (mime_ParseMediaType ct) as [[mediaType params]|e]; [|reflexivity].
  destruct (negb (HasPrefix mediaType "multipart/")); [reflexivity|].
  destruct (Params_get params "boundary" =? ""); [reflexivity|].
  destruct (readParts _ "" "") as [[t h]|e]; [|reflexivity].
  destruct (t =? ""), (h =? ""); reflexivity.
Qed.

(** What a successful [handleMultipart] attaches. *)
Lemma handleMultipart_ok (m m' : SGMailV3) (body ct : string) :
  handleMultipart m body ct = (None, m') ->
  exists mediaType params t h,
    mime_ParseMediaType ct = Ok (mediaType, params) /\
    readParts (multipart_NewReader body (Params_get params "boundary")) "" ""
    = Ok (t, h) /\
    (t <> "" \/ h <> "") /\
    From m' = From m /\ Subject m' = Subject m /\
    Personalizations m' = Personalizations m /\
    Contents m' =
    (Contents m
     ++ (if h =? "" then [] else [NewContent "text/html" h])
     ++ (if t =? "" then [] else [NewContent "text/plain" t]))%list.
Proof.
  unfold handleMultipart.
  destruct (mime_ParseMediaType ct) as [[mediaType params]|e]; [|discriminate].
  destruct (negb (HasPrefix mediaType "multipart/")); [discriminate|].
  destruct (Params_get params "boundary" =? ""); [discriminate|].
  destruct (readParts _ "" "") as [[t h]|e] eqn:Er; [|discriminate].
  intros H. exists mediaType, params, t, h. split; [reflexivity|].
  split; [exact Er|].
  destruct (String.eqb_spec t "") as [Et|Et], (String.eqb_spec h "") as [Eh|Eh];
    cbn in H; try discriminate H; injection H as <-; cbn;
    rewrite <- ?app_assoc, ?app_nil_r; auto 10.
Qed.

(** The content policy, case by case. *)
Lemma addBody_cases (m : SGMailV3) (body ct : string) (s : Session) :
  (Contains ct "multipart/" = true /\
   exists m', handleMultipart m body ct = (None, m') /\
              addBody m body ct s = (m', s, [])) \/
  (Contains ct "multipart/" = true /\
   exists err, handleMultipart m body ct = (Some err, m) /\
               addBody m body ct s =
               (AddContent m (NewContent "text/plain" body), s,
                [Log LogWarn (msgMultipartFallback err)])) \/
  (Contains ct "multipart/" = false /\ Contains ct "text/html" = true /\
   addBody m body ct s = (AddContent m (NewContent "text/html" body), s, [])) \/
  (Contains ct "multipart/" = false /\ Contains ct "text/html" = false /\
   addBody m body ct s = (AddContent m (NewContent "text/plain" body), s, [])).
Proof.
  unfold addBody.
  destruct (Contains ct "multipart/").
  - destruct (handleMultipart m body ct) as [[err|] m'] eqn:E.
    + right; left. split; [reflexivity|]. exists err.
      apply handleMultipart_error_keeps in E as E'. subst m'.
      split; reflexivity.
    + left. split; [reflexivity|]. exists m'; split; reflexivity.
  - destruct (Contains ct "text/html"); [right; right; left | right; right; right];
      repeat split.
Qed.

(** [deliver] submits the message once, under the configured key, and returns
    what the reply says. *)
Lemma deliver_run (m : SGMailV3) (s : Session) :
  exists v post,
    deliver m s = (v, s, ApiSend (SendGridAPIKey (config s)) m :: post) /\
    submitted post = [] /\
    replyOutcome (SendClient_Send (SendGridAPIKey (config s)) m) v /\
    (forall response,
        SendClient_Send (SendGridAPIKey (config s)) m = Ok response ->
        (400 <= StatusCode response)%Z ->
        post = [Log LogError
                  (msgSendGridError (StatusCode response) (Body response))]).
Proof.
  unfold deliver, bind, get, emit, replyOutcome.
  destruct (SendClient_Send _ m) as [response|err].
  - destruct (400 <=? StatusCode response)%Z eqn:E; cbn;
      eexists; eexists; (split; [reflexivity|]); (split; [reflexivity|]);
      (split; [reflexivity|]); intros r [= <-] Hr.
    + reflexivity.
    + apply Z.leb_gt in E; lia.
  - cbn. eexists; eexists; split; [reflexivity|]. split; [reflexivity|].
    split; [reflexivity|]. intros r H; discriminate H.
Qed.

Lemma submitted_app (t1 t2 : list Event) :
  submitted (t1 ++ t2) = (submitted t1 ++ submitted t2)%list.
Proof.
  induction t1 as [|[l m | k r] t1 IH]; cbn; [reflexivity | exact IH |].
  now rewrite IH.
Qed.

(** One run of [sendViaSendGrid]: the content policy may log a warning, then
    exactly one request is submitted and the reply decides the result; the
    session is left as it was. *)
Lemma sendViaSendGrid_run (sender : string) (rcpts : list string)
    (subject body ct : string) (s : Session) :
  exists request pre post v,
    addBody (newMessage sender rcpts subject) body ct s = (request, s, pre) /\
    sendViaSendGrid sender rcpts subject body ct s =
    (v, s, (pre ++ ApiSend (SendGridAPIKey (config s)) request :: post)%list) /\
    submitted pre = [] /\ submitted post = [] /\
    replyOutcome (SendClient_Send (SendGridAPIKey (config s)) request) v /\
    (forall response,
        SendClient_Send (SendGridAPIKey (config s)) request = Ok response ->
        (400 <= StatusCode response)%Z ->
        post = [Log LogError
                  (msgSendGridError (StatusCode response) (Body response))]).
Proof.
  rewrite sendViaSendGrid_blocks. unfold bind at 1.
  destruct (addBody_cases (newMessage sender rcpts subject) body ct s)
    as [(_ & m' & _ & E) | [(_ & err & _ & E) | [(_ & _ & E) | (_ & _ & E)]]];
    rewrite E;
    match goal with
    | |- context [deliver ?m s] =>
        destruct (deliver_run m s) as (v & post & Ed & Hp & Hv & Hl);
        rewrite Ed; exists m
    end;
    eexists; exists post, v; (split; [reflexivity|]); (split; [reflexivity|]);
    (split; [reflexivity|]); auto.
Qed.

End Translation.

(** ** [Data] and the request it submits *)

Section Delivery.

Import strings.
Context {lib : GoLib}.

(** The content policy touches nothing but the content blocks. *)
Lemma addBody_frame (m m' : SGMailV3) (body ct : string) (s s' : Session)
    (tr : list Event) :
  addBody m body ct s = (m', s', tr) ->
  From m' = From m /\ Subject m' = Subject m /\
  Personalizations m' = Personalizations m.
Proof.
  destruct (addBody_cases m body ct s)
    as [(_ & m1 & H & E) | [(_ & err & _ & E) | [(_ & _ & E) | (_ & _ & E)]]];
    rewrite E; intros [= <- _ _]; auto.
  apply handleMultipart_ok in H as (_ & _ & _ & _ & _ & _ & _ & H1 & H2 & H3 & _).
  auto.
Qed.

(** A [Data] call whose message reads and parses: the four debug records, the
    run of [sendViaSendGrid] on the header values and the session's
    recipients, and one closing record. *)
Lemma Data_run (r : Reader) (s : Session) (data body : string) (msg : Message) :
  io_ReadAll r = Ok data ->
  mail_ReadMessage data = Ok msg ->
  io_ReadAll (Msg_Body msg) = Ok body ->
  Data r s =
  (value (sendViaSendGrid (Header_Get (Msg_Header msg) "From") (to s)
            (decodeHeader (Header_Get (Msg_Header msg) "Subject")) body
            (Header_Get (Msg_Header msg) "Content-Type") s),
   s,
   ([Log LogDebug (msgReceived (String.length data));
     Log LogDebug (msgSubject
                     (decodeHeader (Header_Get (Msg_Header msg) "Subject")));
     Log LogDebug (msgFromHeader (Header_Get (Msg_Header msg) "From"));
     Log LogDebug (msgContentType (Header_Get (Msg_Header msg) "Content-Type"))]
    ++ trace (sendViaSendGrid (Header_Get (Msg_Header msg) "From") (to s)
                (decodeHeader (Header_Get (Msg_Header msg) "Subject")) body
                (Header_Get (Msg_Header msg) "Content-Type") s)
    ++ [match value (sendViaSendGrid (Header_Get (Msg_Header msg) "From") (to s)
                       (decodeHeader (Header_Get (Msg_Header msg) "Subject"))
                       body (Header_Get (Msg_Header msg) "Content-Type") s) with
        | Some err => Log LogError (msgSendFailed err)
        | None =>
            Log LogInfo
              (msgEmailSent (from s) (to s)
                 (truncate
                    (decodeHeader (Header_Get (Msg_Header msg) "Subject")) 50))
        end])%list).
Proof.
  intros Hr Hm Hb. unfold Data. rewrite Hr, Hm, Hb.
  destruct (sendViaSendGrid_run (Header_Get (Msg_Header msg) "From") (to s)
              (decodeHeader (Header_Get (Msg_Header msg) "Subject")) body
              (Header_Get (Msg_Header msg) "Content-Type") s)
    as (request & pre & post & v & _ & E & _).
  unfold bind, get, logDebug, logError, logInfo, emit, ret.
  rewrite E. destruct v; cbn; now rewrite ?app_nil_r.
Qed.

(** [Data] never changes the session. *)
Lemma Data_session (r : Reader) (s : Session) : session (Data r s) = s.
Proof.
  destruct (io_ReadAll r) as [data|e] eqn:Hr; [|unfold Data; now rewrite Hr].
  destruct (mail_ReadMessage data) as [msg|e] eqn:Hm;
    [|unfold Data; now rewrite Hr, Hm].
  destruct (io_ReadAll (Msg_Body msg)) as [body|e] eqn:Hb;
    [|unfold Data; now rewrite Hr, Hm, Hb].
  now rewrite (Data_run _ _ _ _ _ Hr Hm Hb).
Qed.

(** The request of a [Data] call that reaches translation. *)
Lemma Data_submits (r : Reader) (s : Session) (data body : string)
    (msg : Message) :
  io_ReadAll r = Ok data ->
  mail_ReadMessage data = Ok msg ->
  io_ReadAll (Msg_Body msg) = Ok body ->
  exists request pre,
    addBody (newMessage (Header_Get (Msg_Header msg) "From") (to s)
               (decodeHeader (Header_Get (Msg_Header msg) "Subject")))
      body (Header_Get (Msg_Header msg) "Content-Type") s = (request, s, pre) /\
    submitted (trace (Data r s)) = [request] /\
    replyOutcome (SendClient_Send (SendGridAPIKey (config s)) request)
      (value (Data r s)) /\
    (forall response,
        SendClient_Send (SendGridAPIKey (config s)) request = Ok response ->
        (400 <= StatusCode response)%Z ->
        In (Log LogError (msgSendGridError (StatusCode response) (Body response)))
           (trace (Data r s))).
Proof.
  intros Hr Hm Hb. rewrite (Data_run _ _ _ _ _ Hr Hm Hb).
  destruct (sendViaSendGrid_run (Header_Get (Msg_Header msg) "From") (to s)
              (decodeHeader (Header_Get (Msg_Header msg) "Subject")) body
              (Header_Get (Msg_Header msg) "Content-Type") s)
    as (request & pre & post & v & Ea & E & Hpre & Hpost & Hv & Hl).
  rewrite E. exists request, pre. split; [exact Ea|].
  cbn [value trace fst snd]. split; [|split; [exact Hv|]].
  - rewrite !submitted_app. cbn [submitted]. rewrite Hpre, Hpost.
    now destruct v.
  - intros response Hs Hc. rewrite (Hl response Hs Hc).
    apply in_or_app; right. apply in_or_app; left. apply in_or_app; right.
    right; now left.
Qed.

(** C8.  In a [Data] call that reaches the provider exactly one request is
    submitted, and its reply decides the transaction: a transport error makes
    [Data] fail with that error wrapped; a reply with status 400 or more makes
    it fail with an error whose text is "sendgrid returned status", the status
    code, and the response body (both are also logged at error level); a reply
    with any status below 400 makes it succeed. *)
Theorem provider_reply_decides (r : Reader) (s : Session) (data body : string)
    (msg : Message) :
  io_ReadAll r = Ok data ->
  mail_ReadMessage data = Ok msg ->
  io_ReadAll (Msg_Body msg) = Ok body ->
  exists request,
    submitted (trace (Data r s)) = [request] /\
    (forall err,
        SendClient_Send (SendGridAPIKey (config s)) request = Err err ->
        value (Data r s) = Some (wrapError "sendgrid API error: " err)) /\
    (forall response,
        SendClient_Send (SendGridAPIKey (config s)) request = Ok response ->
        (400 <= StatusCode response)%Z ->
        exists e,
          value (Data r s) = Some e /\
          Error e = "sendgrid returned status " ++ itoa (StatusCode response)
                    ++ ": " ++ Body response /\
          In (Log LogError
                (msgSendGridError (StatusCode response) (Body response)))
             (trace (Data r s))) /\
    (forall response,
        SendClient_Send (SendGridAPIKey (config s)) request = Ok response ->
        (StatusCode response < 400)%Z ->
        value (Data r s) = None).
Proof.
  intros Hr Hm Hb.
  destruct (Data_submits r s data body msg Hr Hm Hb)
    as (request & pre & _ & Hs & Hv & Hl).
  exists request. split; [exact Hs|]. unfold replyOutcome in Hv.
  split; [|split].
  - intros err E. now rewrite E in Hv.
  - intros response E Hc. rewrite E in Hv.
    apply Z.leb_le in Hc as Hc'. rewrite Hc' in Hv.
    eexists; split; [exact Hv|]. split; [reflexivity | now apply Hl].
  - intros response E Hc. rewrite E in Hv.
    apply Z.leb_gt in Hc. now rewrite Hc in Hv.
Qed.

(** C10.  The from-address of the request a [Data] call submits is computed
    from the [From] header of the message alone (the sender stored by [Mail]
    does not enter it): it is the parsed header when [mail.ParseAddress]
    accepts it, and otherwise the raw header value with its leading and
    trailing angle brackets trimmed, under an empty display name; that is the
    empty address when the message has no [From] header. *)
Theorem request_from_is_header_From (r : Reader) (s : Session)
    (data body : string) (msg : Message) :
  io_ReadAll r = Ok data ->
  mail_ReadMessage data = Ok msg ->
  io_ReadAll (Msg_Body msg) = Ok body ->
  exists request,
    submitted (trace (Data r s)) = [request] /\
    (forall addr,
        mail_ParseAddress (Header_Get (Msg_Header msg) "From") = Ok addr ->
        From request = Some (NewEmail (Addr_Name addr) (Addr_Address addr))) /\
    (forall err,
        mail_ParseAddress (Header_Get (Msg_Header msg) "From") = Err err ->
        From request =
        Some (NewEmail "" (Trim (Header_Get (Msg_Header msg) "From") "<>"))) /\
    (~ In "From" (map fst (Msg_Header msg)) ->
     forall err, mail_ParseAddress "" = Err err ->
     From request = Some (NewEmail "" "")).
Proof.
  intros Hr Hm Hb.
  destruct (Data_submits r s data body msg Hr Hm Hb)
    as (request & pre & Ha & Hs & _).
  exists request. split; [exact Hs|].
  apply addBody_frame in Ha as (HF & _). rewrite HF.
  unfold newMessage, parseAddress; cbn [From AddPersonalizations SetSubject SetFrom].
  split; [|split].
  - intros addr E. now rewrite E.
  - intros err E. now rewrite E.
  - intros Habs err E.
    assert (Header_Get (Msg_Header msg) "From" = "") as ->; [|now rewrite E].
    clear - Habs. induction (Msg_Header msg) as [|[k v] h IH]; [reflexivity|].
    cbn [Header_Get]. destruct (String.eqb_spec k "From") as [->|_].
    + elim Habs; now left.
    + apply IH. intros H; apply Habs; now right.
Qed.


(** C1 (amended).  Every run of [sendViaSendGrid] submits exactly one request,
    and that request has at least one content block.  A block has the empty
    string as its body only when it is the single block holding the raw body
    and the raw body is empty; blocks taken from multipart parts are not empty.
    When [handleMultipart] extracts nothing, the send is not failed: the
    request carries the raw body as one text/plain block. *)
Theorem request_always_has_content (sender : string) (rcpts : list string)
    (subject body ct : string) (s : Session) :
  exists request,
    submitted (trace (sendViaSendGrid sender rcpts subject body ct s))
    = [request] /\
    Contents request <> [] /\
    (forall c, In c (Contents request) -> Content_Value c = "" ->
               body = "" /\ Contents request = [c]) /\
    (Contains ct "multipart/" = true ->
     forall err, fst (handleMultipart NewV3Mail body ct) = Some err ->
     Contents request = [NewContent "text/plain" body]).
Proof.
  destruct (sendViaSendGrid_run sender rcpts subject body ct s)
    as (request & pre & post & v & Ea & E & Hpre & Hpost & _).
  exists request. rewrite E. cbn [trace snd].
  rewrite submitted_app, Hpre. cbn [submitted app]. rewrite Hpost.
  split; [reflexivity|].
  assert (Contents (newMessage sender rcpts subject) = []) as Hnew by reflexivity.
  destruct (addBody_cases (newMessage sender rcpts subject) body ct s)
    as [(Hc & m' & H & E') | [(Hc & err' & H & E') | [(Hc & _ & E') | (Hc & _ & E')]]];
    rewrite E' in Ea; injection Ea as <- _.
  - apply handleMultipart_ok in H as H'.
    destruct H' as (mt & params & t & h & _ & _ & Hne & _ & _ & _ & HC).
    rewrite Hnew in HC. cbn [app] in HC. rewrite HC.
    destruct (String.eqb_spec h "") as [Eh|Eh], (String.eqb_spec t "") as [Et|Et];
      cbn [app]; try (destruct Hne; congruence).
    all: split; [discriminate|]; split;
      [ intros c Hin Hv; cbn [In] in Hin;
        repeat (destruct Hin as [<- | Hin]; [cbn in Hv; congruence|]);
        contradiction
      | intros _ err Hf;
        rewrite (handleMultipart_error_indep _ (newMessage sender rcpts subject)),
          H in Hf; discriminate Hf ].
  - cbn. split; [discriminate|]. split; [|reflexivity].
    intros c [<- | []] Hv. now split.
  - cbn. split; [discriminate|]. split; [|congruence].
    intros c [<- | []] Hv. now split.
  - cbn. split; [discriminate|]. split; [|reflexivity].
    intros c [<- | []] Hv. now split.
Qed.

End Delivery.

(** ** The multipart path on a well-formed body *)

Section Multipart.

Import strings.
Context {lib : GoLib}.

(** On a reader that ends in [io.EOF] the part loop succeeds; each candidate
    is the body of the last part of its kind when that part reads, and is
    unchanged when there is no such part. *)
Lemma readParts_readerOf (parts : list Part) (t h : string) :
  exists t' h',
    readParts (readerOf parts) t h = Ok (t', h') /\
    (forall p b, lastOfKind kindPlain parts = Some p -> partBody p = Ok b ->
                 t' = b) /\
    (lastOfKind kindPlain parts = None -> t' = t) /\
    (forall p b, lastOfKind kindHtml parts = Some p -> partBody p = Ok b ->
                 h' = b) /\
    (lastOfKind kindHtml parts = None -> h' = h).
Proof.
  revert t h; induction parts as [|p rest IH]; intros t h.
  - exists t, h. cbn. repeat split; intros; congruence.
  - cbn [readerOf readParts lastOfKind]. unfold partKind, partBody.
    set (ct := Header_Get (Part_Header p) "Content-Type").
    destruct (io_ReadAll (Part_Body p)) as [b0|e0] eqn:Eb;
      [destruct (Contains ct "text/plain") eqn:Ep;
       [|destruct (Contains ct "text/html") eqn:Eh]|].
    all: match goal with
         | |- context [readParts (readerOf _) ?a ?b] =>
             destruct (IH a b) as (t' & h' & E & Hp1 & Hp2 & Hh1 & Hh2)
         end.
    all: exists t', h'; split; [exact E|].
    all: destruct (lastOfKind kindPlain rest) as [qp|] eqn:Lp;
      destruct (lastOfKind kindHtml rest) as [qh|] eqn:Lh.
    all: destruct (Contains ct "text/plain");
      try destruct (Contains ct "text/html"); cbn [PartKind_eqb];
      try discriminate Ep; try discriminate Eh.
    all: repeat split; intros;
      repeat match goal with
             | H : Some _ = Some _ |- _ => injection H as H; subst
             | H : Some _ = None |- _ => discriminate H
             | H : None = Some _ |- _ => discriminate H
             end;
      eauto; try congruence.
    all: try (rewrite Hp2 by reflexivity); try (rewrite Hh2 by reflexivity);
      congruence.
Qed.

(** C4 (amended).  Let the Content-Type contain "multipart/" and parse to a
    multipart media type with a boundary, and let the reader yield the parts
    [parts] and then [io.EOF].  A part counts as text/plain when its
    Content-Type contains "text/plain", and as text/html when it contains
    "text/html" and not "text/plain".  If the last text/plain part and the
    last text/html part both read to a non-empty body, the request submitted
    has exactly two content blocks, the text/html block first and the
    text/plain block second, holding exactly those two bodies. *)
Theorem multipart_html_then_text (sender : string) (rcpts : list string)
    (subject body ct : string) (s : Session) (mediaType : string)
    (params : Params) (parts : list Part) (tp hp : Part) (tb hb : string) :
  Contains ct "multipart/" = true ->
  mime_ParseMediaType ct = Ok (mediaType, params) ->
  HasPrefix mediaType "multipart/" = true ->
  Params_get params "boundary" <> "" ->
  multipart_NewReader body (Params_get params "boundary") = readerOf parts ->
  lastOfKind kindPlain parts = Some tp -> partBody tp = Ok tb -> tb <> "" ->
  lastOfKind kindHtml parts = Some hp -> partBody hp = Ok hb -> hb <> "" ->
  exists request,
    submitted (trace (sendViaSendGrid sender rcpts subject body ct s))
    = [request] /\
    Contents request = [NewContent "text/html" hb; NewContent "text/plain" tb].
Proof.
  intros Hc Hp Hm Hbd Hrd Ltp Btp Ntb Lhp Bhp Nhb.
  destruct (sendViaSendGrid_run sender rcpts subject body ct s)
    as (request & pre & post & v & Ea & E & Hpre & Hpost & _).
  exists request. rewrite E. cbn [trace snd].
  rewrite submitted_app, Hpre. cbn [submitted app]. rewrite Hpost.
  split; [reflexivity|].
  destruct (readParts_readerOf parts "" "") as (t' & h' & Er & Ht & _ & Hh & _).
  rewrite (Ht _ _ Ltp Btp), (Hh _ _ Lhp Bhp) in Er.
  unfold addBody in Ea. rewrite Hc in Ea. unfold handleMultipart in Ea.
  rewrite Hp, Hm in Ea. cbn [negb] in Ea.
  apply String.eqb_neq in Hbd, Ntb, Nhb.
  rewrite Hbd, Hrd, Er, Ntb, Nhb in Ea. cbn in Ea.
  now injection Ea as <- _.
Qed.

End Multipart.

(** ** The logged subject *)

Lemma truncate_spec (s : string) (maxLen : nat) :
  (String.length s <= maxLen -> truncate s maxLen = s) /\
  (maxLen < String.length s ->
   exists p rest, s = p ++ rest /\ String.length p = maxLen /\
                  truncate s maxLen = p ++ "...").
Proof.
  unfold truncate; split; intros H.
  - apply Nat.leb_le in H. now rewrite H.
  - assert (Nat.leb (String.length s) maxLen = false) as ->
        by (apply Nat.leb_gt; exact H).
    exists (strings.slice_to s maxLen), (strings.slice_from s maxLen).
    split; [symmetry; apply slice_split|].
    split; [apply slice_to_length; lia | reflexivity].
Qed.

(** C6 (amended).  On a [Data] call that succeeds, the closing record is the
    info record with the session's sender and recipients and the truncated
    subject: the decoded subject itself when it is at most 50 bytes long, and
    otherwise its first 50 bytes followed by "...". *)
Theorem logged_subject_truncated {lib : GoLib} (r : Reader) (s : Session)
    (data body : string) (msg : Message) :
  io_ReadAll r = Ok data ->
  mail_ReadMessage data = Ok msg ->
  io_ReadAll (Msg_Body msg) = Ok body ->
  value (Data r s) = None ->
  exists pre logged,
    trace (Data r s) =
    (pre ++ [Log LogInfo (msgEmailSent (from s) (to s) logged)])%list /\
    (String.length (decodeHeader (Header_Get (Msg_Header msg) "Subject")) <= 50 ->
     logged = decodeHeader (Header_Get (Msg_Header msg) "Subject")) /\
    (50 < String.length (decodeHeader (Header_Get (Msg_Header msg) "Subject")) ->
     exists p rest,
       decodeHeader (Header_Get (Msg_Header msg) "Subject") = p ++ rest /\
       String.length p = 50 /\ logged = p ++ "...").
Proof.
  intros Hr Hm Hb. rewrite (Data_run _ _ _ _ _ Hr Hm Hb).
  cbn [value trace fst snd]. intros Hv. rewrite Hv.
  eexists; eexists. split; [now rewrite app_assoc|].
  apply truncate_spec.
Qed.

(** ** Sessions driven by the protocol engine *)

Section Driver.

Import strings.
Context {lib : GoLib}.

Lemma run_cons_session (c : Command) (cs : list Command) (s : Session) :
  session (run (c :: cs) s) = session (run cs (session (step c s))).
Proof.
  cbn [run]. unfold bind, session.
  destruct (step c s) as [[v s1] t1]. cbn [fst snd].
  now destruct (run cs s1) as [[u s2] t2].
Qed.

(** What one callback does to the session. *)
Lemma step_session (c : Command) (s : Session) :
  config (session (step c s)) = config s /\
  remoteAddr (session (step c s)) = remoteAddr s /\
  to (session (step c s)) = envelopeRcpts (to s) [c] /\
  (senderChecked s -> senderChecked (session (step c s))).
Proof.
  destruct c as [u p | sender | rcpt | r |]; cbn [step envelopeRcpts].
  - repeat split; auto.
  - rewrite Mail_run.
    destruct (Nat.ltb 0 (List.length (AllowedSenders (config s)))) eqn:El;
      [destruct (allowed (ToLower sender) (AllowedSenders (config s))) eqn:Ea|];
      cbn; repeat split; auto; intros _; unfold senderChecked; cbn.
    + now right; right.
    + right; left. destruct (AllowedSenders (config s)); [reflexivity|].
      discriminate El.
  - repeat split; auto.
  - rewrite Data_session. repeat split; auto.
  - repeat split; auto. intros _; now left.
Qed.

Lemma run_session (cs : list Command) (s : Session) :
  config (session (run cs s)) = config s /\
  remoteAddr (session (run cs s)) = remoteAddr s /\
  to (session (run cs s)) = envelopeRcpts (to s) cs /\
  (senderChecked s -> senderChecked (session (run cs s))).
Proof.
  revert s; induction cs as [|c cs IH]; intros s.
  - repeat split; auto.
  - rewrite run_cons_session.
    destruct (step_session c s) as (Hc & Hr & Ht & Hs).
    destruct (IH (session (step c s))) as (Hc' & Hr' & Ht' & Hs').
    rewrite Hc', Hr', Ht', Hc, Hr, Ht. repeat split; auto.
    destruct c; reflexivity.
Qed.

End Driver.

(** ** Runs on concrete messages *)

Section Runs.

Import Examples.

(** Scenario A of the specification, with a [From] header in the message. *)
Example scenario_A :
  run (lib := golib accepted202)
    [cmdMail "a@b.com"; cmdRcpt "c@d.com";
     cmdData (bytesReader (rawMessage "text/plain" "hello"))]
    (freshSession [])
  = (tt,
     mkSession (relayConfig []) "10.0.0.7:40000" "a@b.com" ["c@d.com"],
     [Log LogDebug (msgMailFrom "a@b.com");
      Log LogDebug (msgRcptTo "c@d.com");
      Log LogDebug (msgReceived 61);
      Log LogDebug (msgSubject "Hi");
      Log LogDebug (msgFromHeader "a@b.com");
      Log LogDebug (msgContentType "text/plain");
      ApiSend "SG.key"
        (mkSGMailV3 (Some (mkEmail "" "a@b.com")) "Hi"
           [mkPersonalization [mkEmail "" "c@d.com"]]
           [mkContent "text/plain" "hello"]);
      Log LogDebug (msgSendGridResponse 202);
      Log LogInfo (msgEmailSent "a@b.com" ["c@d.com"] "Hi")]).
Proof. vm_compute. reflexivity. Qed.

(** The same message when the provider cannot be reached. *)
Example transport_error_fails :
  value (Data (lib := golib transportDown)
           (bytesReader (rawMessage "text/plain" "hello")) (freshSession []))
  = Some (wrapError "sendgrid API error: "
            (errorString "dial tcp: connection refused")).
Proof. vm_compute. reflexivity. Qed.

(** C1, as stated, fails: a message announced as multipart/mixed without a
    boundary and with an empty body.  Nothing can be extracted, yet [Data]
    succeeds and the request it submitted holds one block whose body is the
    empty string. *)
Lemma empty_block_is_submitted :
  fst (handleMultipart (lib := golib accepted202) NewV3Mail "" "multipart/mixed")
  = Some (errorString "no boundary found") /\
  value (Data (lib := golib accepted202)
           (bytesReader (rawMessage "multipart/mixed" "")) (freshSession []))
  = None /\
  map Contents
    (submitted
       (trace (Data (lib := golib accepted202)
                 (bytesReader (rawMessage "multipart/mixed" ""))
                 (freshSession []))))
  = [[NewContent "text/plain" ""]].
Proof. repeat split; vm_compute; reflexivity. Qed.

(** The amended C1 on that message: the raw body, empty here, is the one
    block of the request. *)
Lemma request_always_has_content_witness :
  exists request,
    submitted
      (trace (sendViaSendGrid (lib := golib accepted202) "a@b.com" ["c@d.com"]
                "Hi" "" "multipart/mixed" (freshSession [])))
    = [request] /\
    Contents request = [NewContent "text/plain" ""].
Proof.
  destruct (request_always_has_content (lib := golib accepted202)
              "a@b.com" ["c@d.com"] "Hi" "" "multipart/mixed" (freshSession []))
    as (request & Hs & _ & _ & H).
  exists request. split; [exact Hs|].
  apply (H eq_refl (errorString "no boundary found")). reflexivity.
Defined.

(** C4, as stated, fails: a multipart/alternative message whose text/plain
    part has an empty body and whose text/html part is [<p>hi</p>].  The
    request holds the html block only. *)
Lemma empty_text_part_gives_one_block :
  multipart_NewReader (GoLib := golib accepted202) emptyTextBody "b"
  = readerOf [textPart "text/plain" ""; textPart "text/html" "<p>hi</p>"] /\
  map Contents
    (submitted
       (trace (sendViaSendGrid (lib := golib accepted202) "a@b.com" ["c@d.com"]
                 "Hi" emptyTextBody "multipart/alternative; boundary=b"
                 (freshSession []))))
  = [[NewContent "text/html" "<p>hi</p>"]].
Proof. split; vm_compute; reflexivity. Qed.

(** The amended C4 on a message with a text and an html part. *)
Lemma multipart_html_then_text_witness :
  exists request,
    submitted
      (trace (sendViaSendGrid (lib := golib accepted202) "a@b.com" ["c@d.com"]
                "Hi" bothBody "multipart/alternative; boundary=b"
                (freshSession [])))
    = [request] /\
    Contents request =
    [NewContent "text/html" "<p>hi</p>"; NewContent "text/plain" "hi"].
Proof.
  apply (multipart_html_then_text (lib := golib accepted202)
           "a@b.com" ["c@d.com"] "Hi" bothBody
           "multipart/alternative; boundary=b" (freshSession [])
           "multipart/alternative" [("boundary", "b")] bothParts
           (textPart "text/plain" "hi") (textPart "text/html" "<p>hi</p>")
           "hi" "<p>hi</p>");
    try reflexivity; discriminate.
Defined.


(** C6, as stated, fails: a subject of 26 characters, each two bytes long in
    UTF-8.  It is at most 50 characters long, but [Data] logs its first 50
    bytes (25 characters) followed by "...", not the subject itself. *)
Lemma accented_subject_cut_at_50_bytes :
  utf8Chars accentedSubject = 26 /\
  String.length accentedSubject = 52 /\
  value (Data (lib := golib accepted202) (bytesReader rawAccented)
           (freshSession []))
  = None /\
  last (trace (Data (lib := golib accepted202) (bytesReader rawAccented)
                 (freshSession [])))
       (Log LogInfo msgSessionReset)
  = Log LogInfo
      (msgEmailSent "" []
         (repeatString (String "195"%char (String "169"%char "")) 25 ++ "...")) /\
  repeatString (String "195"%char (String "169"%char "")) 25 ++ "..."
  <> accentedSubject.
Proof. repeat split; vm_compute; try reflexivity; discriminate. Qed.

(** The amended C6 on scenario A: the short subject is logged as it is. *)
Lemma logged_subject_truncated_witness :
  exists pre,
    trace (Data (lib := golib accepted202)
             (bytesReader (rawMessage "text/plain" "hello")) (freshSession []))
    = (pre ++ [Log LogInfo (msgEmailSent "" [] "Hi")])%list.
Proof.
  destruct (logged_subject_truncated (lib := golib accepted202)
              (bytesReader (rawMessage "text/plain" "hello")) (freshSession [])
              (rawMessage "text/plain" "hello") "hello"
              (parsedMessage "text/plain" "hello")
              eq_refl eq_refl eq_refl eq_refl)
    as (pre & logged & Ht & Hshort & _).
  exists pre. rewrite Ht. rewrite Hshort; [reflexivity|].
  cbn. lia.
Defined.

(** C8 on scenario C of the specification: the provider answers 500
    "rate limited". *)
Lemma provider_reply_decides_witness :
  exists e,
    value (Data (lib := golib rateLimited500)
             (bytesReader (rawMessage "text/plain" "hello")) (freshSession []))
    = Some e /\
    Error e = "sendgrid returned status 500: rate limited".
Proof.
  destruct (provider_reply_decides (lib := golib rateLimited500)
              (bytesReader (rawMessage "text/plain" "hello")) (freshSession [])
              (rawMessage "text/plain" "hello") "hello"
              (parsedMessage "text/plain" "hello") eq_refl eq_refl eq_refl)
    as (request & _ & _ & H & _).
  destruct (H (mkResponse 500 "rate limited") eq_refl) as (e & He & Hm & _).
  - cbn; lia.
  - exists e. split; [exact He | exact Hm].
Defined.

(** C10 on a message without [From] header, in a session whose envelope
    sender is [a@b.com]. *)
Lemma request_from_is_header_From_witness :
  exists request,
    submitted
      (trace (Data (lib := golib accepted202) (bytesReader rawNoFrom)
                (mkSession (relayConfig []) "10.0.0.7:40000" "a@b.com"
                   ["c@d.com"])))
    = [request] /\
    From request = Some (NewEmail "" "").
Proof.
  destruct (request_from_is_header_From (lib := golib accepted202)
              (bytesReader rawNoFrom)
              (mkSession (relayConfig []) "10.0.0.7:40000" "a@b.com" ["c@d.com"])
              rawNoFrom "hello" parsedNoFrom eq_refl eq_refl eq_refl)
    as (request & Hs & _ & _ & H).
  exists request. split; [exact Hs|].
  apply (H (fun Hin =>
              match Hin with
              | or_introl E => ltac:(discriminate E)
              | or_intror (or_introl E) => ltac:(discriminate E)
              | or_intror (or_intror F) => match F with end
              end) (errorString "mail: no address")).
  reflexivity.
Defined.

End Runs.

(** * Further properties of the code *)

(** ** More on strings *)

Section MoreStringFacts.

Import strings.

Lemma IndexByte_app (a b : string) (c : ascii) :
  IndexByte (a ++ b) c = IndexByte a c || IndexByte b c.
Proof.
  induction a as [|x a IH]; cbn [append IndexByte]; [reflexivity|].
  now rewrite IH, orb_assoc.
Qed.

Lemma onlyBytes_app (cutset a b : string) :
  onlyBytes cutset (a ++ b) = onlyBytes cutset a && onlyBytes cutset b.
Proof.
  induction a as [|x a IH]; cbn [append onlyBytes]; [reflexivity|].
  now rewrite IH, andb_assoc.
Qed.

Lemma ToLower_length (s : string) : String.length (ToLower s) = String.length s.
Proof. induction s as [|c s IH]; cbn; [reflexivity | now rewrite IH]. Qed.

Lemma lower_byte_idem (c : ascii) : lower_byte (lower_byte c) = lower_byte c.
Proof. destruct c as [[] [] [] [] [] [] [] []]; vm_compute; reflexivity. Qed.

Lemma ToLower_idem (s : string) : ToLower (ToLower s) = ToLower s.
Proof.
  induction s as [|c s IH]; cbn [ToLower]; [reflexivity|].
  now rewrite lower_byte_idem, IH.
Qed.

Lemma IndexByte_ToLower_gt (s : string) :
  IndexByte (ToLower s) ">" = IndexByte s ">".
Proof.
  induction s as [|c s IH]; cbn [ToLower IndexByte]; [reflexivity|].
  rewrite IH. f_equal.
  destruct (Ascii.eqb_spec ">"%char c) as [<-|E]; [reflexivity|].
  apply Ascii.eqb_neq. intros H. apply E. symmetry. apply lower_byte_gt.
  now symmetry.
Qed.

Lemma HasPrefix_byte (c d : ascii) (s : string) :
  HasPrefix (String c s) (String d "") = Ascii.eqb c d.
Proof.
  unfold HasPrefix. destruct s;
    cbn [String.length slice_to Nat.leb andb String.eqb];
    destruct (Ascii.eqb c d); reflexivity.
Qed.

Lemma app_inv_last (a b : string) (c : ascii) :
  a ++ String c "" = b ++ String c "" -> a = b.
Proof.
  revert b; induction a as [|x a IH]; intros [|y b]; cbn [append]; intros E.
  - reflexivity.
  - injection E as _ E. now destruct b.
  - injection E as _ E. now destruct a.
  - injection E as -> E. now rewrite (IH _ E).
Qed.

(** What [TrimLeft] removes and what it leaves. *)
Lemma TrimLeft_spec (s cutset : string) :
  exists a, s = a ++ TrimLeft s cutset /\ onlyBytes cutset a = true /\
            (forall c r, TrimLeft s cutset = String c r ->
                         IndexByte cutset c = false).
Proof.
  induction s as [|x s (a & E & Ha & Hf)]; cbn [TrimLeft].
  - exists "". repeat split. intros c r H; discriminate H.
  - destruct (IndexByte cutset x) eqn:Ex.
    + exists (String x a). cbn [append onlyBytes]. rewrite <- E, Ex, Ha.
      repeat split. exact Hf.
    + exists "". repeat split. now intros c r [= <- _].
Qed.

(** What [TrimRight] removes and what it leaves. *)
Lemma TrimRight_spec (s cutset : string) :
  exists b, s = TrimRight s cutset ++ b /\ onlyBytes cutset b = true /\
            (forall r c, TrimRight s cutset = r ++ String c "" ->
                         IndexByte cutset c = false).
Proof.
  induction s as [|x s (b & E & Hb & Hl)]; cbn [TrimRight].
  - exists "". repeat split. intros [|y r] c H; discriminate H.
  - destruct (TrimRight s cutset) as [|d t] eqn:Et.
    + cbn [append] in E. subst b.
      destruct (IndexByte cutset x) eqn:Ex.
      * exists (String x s). cbn [append onlyBytes]. rewrite Ex, Hb.
        repeat split. intros [|y r] c H; discriminate H.
      * exists s. repeat split; [exact Hb|].
        intros [|y r] c H; cbn [append] in H.
        -- now injection H as <-.
        -- injection H as _ H. now destruct r.
    + exists b. cbn [append]. cbn [append] in E. rewrite <- E.
      repeat split; [exact Hb|].
      intros [|y r] c H; cbn [append] in H; [discriminate H|].
      injection H as _ H. exact (Hl _ _ H).
Qed.

(** [Trim] cuts a run of cutset bytes at each end, and what it returns neither
    starts nor ends with a cutset byte. *)
Lemma Trim_spec (s cutset : string) :
  (exists a b, s = a ++ Trim s cutset ++ b /\
               onlyBytes cutset a = true /\ onlyBytes cutset b = true) /\
  (forall c r, Trim s cutset = String c r -> IndexByte cutset c = false) /\
  (forall r c, Trim s cutset = r ++ String c "" -> IndexByte cutset c = false).
Proof.
  unfold Trim.
  destruct (TrimLeft_spec s cutset) as (a & Ea & Ha & Hf).
  destruct (TrimRight_spec (TrimLeft s cutset) cutset) as (b & Eb & Hb & Hl).
  split; [|split].
  - exists a, b. rewrite <- Eb. auto.
  - intros c r H. rewrite H in Eb. exact (Hf _ _ Eb).
  - exact Hl.
Qed.

Lemma TrimLeft_fixed (s cutset : string) :
  (forall c r, s = String c r -> IndexByte cutset c = false) ->
  TrimLeft s cutset = s.
Proof.
  destruct s as [|x s]; [reflexivity|]. intros H. cbn [TrimLeft].
  now rewrite (H x s eq_refl).
Qed.

Lemma TrimRight_fixed (s cutset : string) :
  (forall r c, s = r ++ String c "" -> IndexByte cutset c = false) ->
  TrimRight s cutset = s.
Proof.
  induction s as [|x s IH]; [reflexivity|]. intros H. cbn [TrimRight].
  rewrite IH.
  - destruct s as [|d t]; [|reflexivity].
    now rewrite (H "" x eq_refl).
  - intros r c ->. apply (H (String x r) c). reflexivity.
Qed.

(** Trimming twice is trimming once. *)
Lemma Trim_idem (s cutset : string) :
  Trim (Trim s cutset) cutset = Trim s cutset.
Proof.
  destruct (Trim_spec s cutset) as (_ & Hf & Hl).
  unfold Trim at 1. rewrite (TrimLeft_fixed _ _ Hf).
  now apply TrimRight_fixed.
Qed.

(** The pieces [Split] cuts at commas hold no comma. *)
Lemma splitFrom_comma (s cur : string) :
  IndexByte cur "," = false ->
  Forall (fun piece => IndexByte piece "," = false) (splitFrom s "," 0 cur).
Proof.
  revert cur; induction s as [|c s IH]; intros cur Hc; cbn [splitFrom].
  - now constructor.
  - rewrite HasPrefix_byte. cbn [String.length Nat.sub].
    destruct (Ascii.eqb_spec c ","%char) as [->|E].
    + constructor; [exact Hc | now apply IH].
    + apply IH. rewrite IndexByte_app, Hc. cbn [IndexByte orb].
      rewrite orb_false_r. apply Ascii.eqb_neq. congruence.
Qed.

End MoreStringFacts.

(** ** More on the envelope *)

Section MoreEnvelope.

Import strings.

(** X2. With an allow-list configured the empty sender (the null reverse-path
    of bounce messages) is rejected, whatever the list holds. *)
Theorem Mail_rejects_null_sender (s : Session) :
  AllowedSenders (config s) <> [] ->
  value (Mail "" s) = Some (errorString "sender domain not allowed") /\
  session (Mail "" s) = s.
Proof.
  intros HD. rewrite Mail_run, (nonempty_ltb _ HD). cbn [andb ToLower].
  assert (allowed "" (AllowedSenders (config s)) = false) as ->.
  { clear HD. induction (AllowedSenders (config s)) as [|d ds IH]; [reflexivity|].
    cbn [allowed]. unfold HasSuffix at 1 2. cbn [append String.length Nat.leb].
    cbn [andb orb]. apply IH. }
  split; reflexivity.
Qed.

(** X2 on a concrete input. *)
Lemma Mail_rejects_null_sender_witness :
  value (Mail "" (Examples.freshSession ["trusted.com"]))
  = Some (errorString "sender domain not allowed").
Proof.
  apply (Mail_rejects_null_sender (Examples.freshSession ["trusted.com"])).
  discriminate.
Defined.

Lemma allowed_lowered (fromLower : string) (domains : list string) :
  allowed fromLower (map ToLower domains) = allowed fromLower domains.
Proof.
  induction domains as [|d ds IH]; [reflexivity|].
  cbn [map allowed]. now rewrite ToLower_idem, IH.
Qed.

(** X3. The decision of [Mail] depends on the sender and on the allow-list only
    up to the case of ASCII letters. *)
Theorem Mail_case_insensitive (s s' : Session) (sender sender' : string) :
  ToLower sender = ToLower sender' ->
  map ToLower (AllowedSenders (config s))
  = map ToLower (AllowedSenders (config s')) ->
  (value (Mail sender s) = None <-> value (Mail sender' s') = None).
Proof.
  intros Hs HD. rewrite !Mail_run.
  rewrite <- (allowed_lowered _ (AllowedSenders (config s))).
  rewrite <- (allowed_lowered _ (AllowedSenders (config s'))).
  rewrite <- HD, <- Hs.
  assert (List.length (AllowedSenders (config s'))
          = List.length (AllowedSenders (config s))) as ->.
  { rewrite <- (length_map ToLower), <- HD. apply length_map. }
  destruct (_ && _); cbn; split; congruence.
Qed.

(** X3 on a concrete input. *)
Lemma Mail_case_insensitive_witness :
  value (Mail "USER@Trusted.Com" (Examples.freshSession ["trusted.com"])) = None
  <-> value (Mail "user@trusted.com" (Examples.freshSession ["TRUSTED.COM"]))
      = None.
Proof.
  apply (Mail_case_insensitive (Examples.freshSession ["trusted.com"])
           (Examples.freshSession ["TRUSTED.COM"])); reflexivity.
Defined.

(** X4. A sender written with a closing angle bracket, [user@x>], is accepted
    exactly when [x] is a proper subdomain of a listed domain (ends with a dot
    followed by the domain, up to letter case); the listed domain itself is
    then not accepted. Here sender and listed domains are ASCII strings,
    neither [x] nor a listed domain contains ["@"], and no listed domain
    contains [">"]. *)
Theorem Mail_bracketed_sender (s : Session) (user x : string) :
  isASCII user = true -> isASCII x = true ->
  forallb isASCII (AllowedSenders (config s)) = true ->
  AllowedSenders (config s) <> [] ->
  noAt x ->
  Forall (fun d => noAt d /\ IndexByte d ">" = false) (AllowedSenders (config s)) ->
  (value (Mail (user ++ "@" ++ x ++ ">") s) = None <->
   exists d, In d (AllowedSenders (config s)) /\
             HasSuffix (ToLower x) ("." ++ ToLower d) = true).
Proof.
  intros _ _ _ HD Hx Hall. rewrite Mail_run, (nonempty_ltb _ HD). cbn [andb].
  assert (noAt (x ++ ">")) as Hx'.
  { apply noAt_app; split; [exact Hx | reflexivity]. }
  assert (forall d, In d (AllowedSenders (config s)) ->
            (HasSuffix (ToLower (user ++ "@" ++ x ++ ">")) ("@" ++ ToLower d) = true
             \/ HasSuffix (ToLower (user ++ "@" ++ x ++ ">"))
                  ("." ++ ToLower d ++ ">") = true)
            <-> HasSuffix (ToLower x) ("." ++ ToLower d) = true) as Hd.
  { intros d Hin. rewrite Forall_forall in Hall.
    destruct (Hall d Hin) as [Hnd Hgt]. split.
    - intros [H | H].
      + apply (at_suffix_is_equality user (x ++ ">") d Hx' Hnd) in H.
        unfold equalFold in H. exfalso.
        assert (IndexByte (ToLower (x ++ ">")) ">" = true) as Ht.
        { rewrite ToLower_app, IndexByte_app. cbn. apply orb_true_r. }
        rewrite H, IndexByte_ToLower_gt, Hgt in Ht. discriminate Ht.
      + apply (dot_suffix_behind_at user (x ++ ">") d Hnd) in H.
        apply HasSuffix_spec in H as [p E]. apply HasSuffix_spec. exists p.
        rewrite ToLower_app in E. cbn [ToLower] in E.
        change (lower_byte ">") with ">"%char in E.
        change ("." ++ ToLower d ++ ">") with (String "." (ToLower d ++ ">")) in E.
        change ("." ++ ToLower d) with (String "." (ToLower d)).
        apply (app_inv_last _ _ ">"%char).
        rewrite E. rewrite app_assoc_s. reflexivity.
    - intros H. right.
      apply (dot_suffix_behind_at user (x ++ ">") d Hnd).
      apply HasSuffix_spec in H as [p E]. apply HasSuffix_spec. exists p.
      rewrite ToLower_app, E. cbn [ToLower].
      change (lower_byte ">") with ">"%char.
      rewrite app_assoc_s. reflexivity. }
  destruct (allowed _ _) eqn:Ea; cbn [negb value fst].
  - apply allowed_spec in Ea as (d & Hin & H).
    split; [intros _ | reflexivity]. exists d; split; [exact Hin|].
    now apply Hd.
  - split; [discriminate|]. intros (d & Hin & H).
    assert (allowed (ToLower (user ++ "@" ++ x ++ ">"))
              (AllowedSenders (config s)) = true) as Ht; [|congruence].
    apply allowed_spec. exists d; split; [exact Hin | now apply Hd].
Qed.

(** X4 on a concrete input. *)
Lemma Mail_bracketed_sender_witness :
  value (Mail ("<user" ++ "@" ++ "mail.trusted.com" ++ ">")
           (Examples.freshSession ["trusted.com"])) = None <->
  exists d, In d ["trusted.com"] /\
            HasSuffix (ToLower "mail.trusted.com") ("." ++ ToLower d) = true.
Proof.
  apply (Mail_bracketed_sender (Examples.freshSession ["trusted.com"])
           "<user" "mail.trusted.com").
  - reflexivity.
  - reflexivity.
  - reflexivity.
  - discriminate.
  - reflexivity.
  - repeat constructor.
Defined.

(** X1. [Rcpt] never rejects: every string is appended as it is, after the
    recipients already collected, duplicates included; sender, configuration
    and remote address stay. *)
Theorem Rcpt_appends (s : Session) (rcpts : list string) :
  (forall rcpt, value (Rcpt rcpt s) = None) /\
  fold_left (fun st rcpt => session (Rcpt rcpt st)) rcpts s
  = mkSession (config s) (remoteAddr s) (from s) (to s ++ rcpts).
Proof.
  split; [reflexivity|].
  revert s; induction rcpts as [|r rs IH]; intros s; cbn [fold_left].
  - rewrite app_nil_r. now destruct s.
  - rewrite IH. cbn. now rewrite <- app_assoc.
Qed.

(** X19. The logged subject is never longer than [maxLen + 3] bytes: a string
    of at most [maxLen] bytes keeps its length, a longer one comes back with
    exactly [maxLen + 3] bytes. *)
Theorem truncate_length (s : string) (maxLen : nat) :
  String.length (truncate s maxLen)
  = (if Nat.leb (String.length s) maxLen then String.length s else maxLen + 3) /\
  String.length (truncate s maxLen) <= maxLen + 3.
Proof.
  unfold truncate. destruct (Nat.leb_spec (String.length s) maxLen) as [H|H].
  - split; [reflexivity | lia].
  - rewrite length_app, slice_to_length by lia. cbn. split; lia.
Qed.

(** X15. The threshold [main] derives from an ASCII value of LOG_LEVEL: error
    records are printed under every setting; warnings are suppressed only by
    "error"; debug records are printed only under "debug"; info records are
    suppressed only by "warn", "warning" and "error" (all up to letter case).
    An unknown setting behaves as "info". *)
Theorem log_threshold (level : string) (msg : LogMsg) :
  isASCII level = true ->
  printed (parseLogLevel level) (Log LogError msg) = true /\
  (printed (parseLogLevel level) (Log LogWarn msg) = false <->
   ToLower level = "error") /\
  (printed (parseLogLevel level) (Log LogDebug msg) = true <->
   ToLower level = "debug") /\
  (printed (parseLogLevel level) (Log LogInfo msg) = false <->
   ToLower level = "warn" \/ ToLower level = "warning" \/
   ToLower level = "error").
Proof.
  intros _. unfold parseLogLevel.
  destruct (String.eqb_spec (ToLower level) "debug") as [E1|E1];
    [rewrite E1; cbn; repeat split; intros; try congruence;
     repeat match goal with H : _ \/ _ |- _ => destruct H end; discriminate|].
  destruct (String.eqb_spec (ToLower level) "info") as [E2|E2];
    [rewrite E2; cbn; repeat split; intros; try congruence;
     repeat match goal with H : _ \/ _ |- _ => destruct H end; discriminate|].
  destruct (String.eqb_spec (ToLower level) "warn") as [E3|E3];
    [rewrite E3; cbn; repeat split; intros; try congruence; auto;
     repeat match goal with H : _ \/ _ |- _ => destruct H end; discriminate|].
  destruct (String.eqb_spec (ToLower level) "warning") as [E4|E4];
    [rewrite E4; cbn; repeat split; intros; try congruence; auto;
     repeat match goal with H : _ \/ _ |- _ => destruct H end; discriminate|].
  cbn [orb].
  destruct (String.eqb_spec (ToLower level) "error") as [E5|E5];
    cbn; repeat split; intros; try congruence; auto;
    repeat match goal with H : _ \/ _ |- _ => destruct H end; congruence.
Qed.

(** X15 on the setting "WARNING": info records are suppressed, warnings are
    printed. *)
Lemma log_threshold_witness :
  printed (parseLogLevel "WARNING") (Log LogInfo msgSessionReset) = false /\
  printed (parseLogLevel "WARNING") (Log LogWarn msgSessionReset) = true.
Proof.
  destruct (log_threshold "WARNING" msgSessionReset eq_refl)
    as (_ & Hw & _ & Hi).
  split.
  - apply Hi. right; left; reflexivity.
  - apply not_false_iff_true. intros E. apply Hw in E. discriminate E.
Defined.

End MoreEnvelope.

(** ** Start-up *)

Section StartUp.

Import strings.

(** X16. [loadConfig] fails exactly when SENDGRID_API_KEY is empty or not set.
    Otherwise it returns a configuration with that key in which listen address,
    domain and log level are the given values, or ":25", "localhost" and "info"
    where a value is empty; none of the three is ever empty, and with LOG_LEVEL
    not set the relay starts at level info. *)
Theorem loadConfig_defaults (Getenv : string -> string) :
  (Getenv "SENDGRID_API_KEY" = "" ->
   loadConfig Getenv
   = Err (errorString "SENDGRID_API_KEY environment variable is required")) /\
  (Getenv "SENDGRID_API_KEY" <> "" ->
   exists cfg,
     loadConfig Getenv = Ok cfg /\
     SendGridAPIKey cfg = Getenv "SENDGRID_API_KEY" /\
     ListenAddr cfg = (if Getenv "SMTP_LISTEN_ADDR" =? "" then ":25"
                       else Getenv "SMTP_LISTEN_ADDR") /\
     Domain cfg = (if Getenv "SMTP_DOMAIN" =? "" then "localhost"
                   else Getenv "SMTP_DOMAIN") /\
     LogLevel_ cfg = (if Getenv "LOG_LEVEL" =? "" then "info"
                      else Getenv "LOG_LEVEL") /\
     ListenAddr cfg <> "" /\ Domain cfg <> "" /\ LogLevel_ cfg <> "" /\
     (Getenv "LOG_LEVEL" = "" -> startLogLevel cfg = LogInfo)).
Proof.
  unfold loadConfig. cbn [SendGridAPIKey ListenAddr Domain LogLevel_ AllowedSenders].
  split.
  - intros ->. reflexivity.
  - intros HK. apply String.eqb_neq in HK. rewrite HK.
    destruct (String.eqb_spec (Getenv "SMTP_LISTEN_ADDR") "") as [E1|E1];
      cbn [SendGridAPIKey ListenAddr Domain LogLevel_ AllowedSenders];
      destruct (String.eqb_spec (Getenv "SMTP_DOMAIN") "") as [E2|E2];
      cbn [SendGridAPIKey ListenAddr Domain LogLevel_ AllowedSenders];
      destruct (String.eqb_spec (Getenv "LOG_LEVEL") "") as [E3|E3];
      cbn [SendGridAPIKey ListenAddr Domain LogLevel_ AllowedSenders];
      destruct (negb (Getenv "ALLOWED_SENDERS" =? ""));
      (eexists; split; [reflexivity|]);
      cbn [SendGridAPIKey ListenAddr Domain LogLevel_ AllowedSenders
           startLogLevel];
      repeat split; try assumption; try discriminate; try reflexivity;
      intros; try congruence; reflexivity.
Qed.

(** X16 on a concrete input. *)
Lemma loadConfig_defaults_witness :
  exists cfg,
    loadConfig (envOf [("SENDGRID_API_KEY", "SG.key")]) = Ok cfg /\
    ListenAddr cfg = ":25" /\ Domain cfg = "localhost" /\
    startLogLevel cfg = LogInfo.
Proof.
  destruct (loadConfig_defaults (envOf [("SENDGRID_API_KEY", "SG.key")]))
    as [_ H].
  destruct H as (cfg & E & _ & HL & HD & _ & _ & _ & _ & Hlvl);
    [discriminate|].
  exists cfg. repeat split; [exact E | exact HL | exact HD | now apply Hlvl].
Defined.

Lemma appendSenders_filter (acc pieces : list string) :
  appendSenders acc pieces
  = (acc ++ filter (fun d => negb (d =? "")) (map TrimSpace pieces))%list.
Proof.
  revert acc; induction pieces as [|p ps IH]; intros acc;
    cbn [appendSenders map filter].
  - now rewrite app_nil_r.
  - destruct (negb (TrimSpace p =? "")); rewrite IH; [|reflexivity].
    now rewrite <- app_assoc.
Qed.

(** The loop of [loadConfig], as a filter over the trimmed pieces. *)
Lemma loadConfig_senders (Getenv : string -> string) (cfg : Config) :
  loadConfig Getenv = Ok cfg ->
  AllowedSenders cfg
  = filter (fun d => negb (d =? ""))
      (map TrimSpace (Split (Getenv "ALLOWED_SENDERS") ",")).
Proof.
  intros H. unfold loadConfig in H.
  cbn [SendGridAPIKey ListenAddr Domain LogLevel_ AllowedSenders] in H.
  destruct (Getenv "SENDGRID_API_KEY" =? ""); [discriminate H|].
  destruct (Getenv "SMTP_LISTEN_ADDR" =? "");
    cbn [SendGridAPIKey ListenAddr Domain LogLevel_ AllowedSenders] in H;
    destruct (Getenv "SMTP_DOMAIN" =? "");
    cbn [SendGridAPIKey ListenAddr Domain LogLevel_ AllowedSenders] in H;
    destruct (Getenv "LOG_LEVEL" =? "");
    cbn [SendGridAPIKey ListenAddr Domain LogLevel_ AllowedSenders] in H;
    destruct (String.eqb_spec (Getenv "ALLOWED_SENDERS") "") as [E|E];
    cbn [negb] in H; injection H as <-;
    cbn [SendGridAPIKey ListenAddr Domain LogLevel_ AllowedSenders];
    try (rewrite E; reflexivity); apply appendSenders_filter.
Qed.

(** X17. The allow-list [loadConfig] builds from an ASCII value of
    ALLOWED_SENDERS: the pieces between commas, each trimmed of surrounding
    white space, the empty ones dropped, in their order and with duplicates.
    So every listed domain is non-empty, holds no comma, and has no white
    space at either end. *)
Theorem loadConfig_allow_list (Getenv : string -> string) (cfg : Config) :
  isASCII (Getenv "ALLOWED_SENDERS") = true ->
  loadConfig Getenv = Ok cfg ->
  AllowedSenders cfg
  = filter (fun d => negb (d =? ""))
      (map TrimSpace (Split (Getenv "ALLOWED_SENDERS") ",")) /\
  Forall (fun d => d <> "" /\ IndexByte d "," = false /\ TrimSpace d = d)
    (AllowedSenders cfg).
Proof.
  intros _ H.
  pose proof (loadConfig_senders Getenv cfg H) as E.
  split; [exact E|]. rewrite E. apply Forall_forall. intros d Hd.
  apply filter_In in Hd as [Hd Hne]. apply in_map_iff in Hd as (p & <- & Hp).
  split; [|split].
  - intros Hx. rewrite Hx in Hne. discriminate Hne.
  - pose proof (splitFrom_comma (Getenv "ALLOWED_SENDERS") "" eq_refl) as Hc.
    rewrite Forall_forall in Hc. specialize (Hc p Hp).
    destruct (Trim_spec p asciiSpace) as ((a & b & Ep & _) & _).
    fold (TrimSpace p) in Ep. rewrite Ep, !IndexByte_app in Hc.
    apply orb_false_elim in Hc as [_ Hc].
    now apply orb_false_elim in Hc as [Hc _].
  - apply Trim_idem.
Qed.

(** X17 on a concrete input. *)
Lemma loadConfig_allow_list_witness :
  exists cfg,
    loadConfig (envOf [("SENDGRID_API_KEY", "SG.key");
                       ("ALLOWED_SENDERS", " a.com, ,B.org ,a.com")]) = Ok cfg /\
    AllowedSenders cfg = ["a.com"; "B.org"; "a.com"].
Proof.
  eexists. split; [reflexivity|].
  apply (loadConfig_allow_list
           (envOf [("SENDGRID_API_KEY", "SG.key");
                   ("ALLOWED_SENDERS", " a.com, ,B.org ,a.com")])).
  - reflexivity.
  - reflexivity.
Defined.

(** X18. When ALLOWED_SENDERS is not set, or holds only commas and white space,
    the configuration has no allow-list, and a session under it accepts every
    sender. *)
Theorem loadConfig_blank_allow_list (Getenv : string -> string) (cfg : Config) :
  loadConfig Getenv = Ok cfg ->
  (forall piece, In piece (Split (Getenv "ALLOWED_SENDERS") ",") ->
                 TrimSpace piece = "") ->
  AllowedSenders cfg = [] /\
  (forall s sender,
      config s = cfg ->
      value (Mail sender s) = None /\ from (session (Mail sender s)) = sender).
Proof.
  intros H Hblank.
  assert (AllowedSenders cfg = []) as E.
  { rewrite (loadConfig_senders Getenv cfg H).
    induction (Split (Getenv "ALLOWED_SENDERS") ",") as [|p ps IH];
      [reflexivity|].
    cbn [map filter]. rewrite (Hblank p (or_introl eq_refl)). cbn.
    apply IH. intros q Hq. apply Hblank. now right. }
  split; [exact E|]. intros s sender <-. rewrite Mail_run, E. split; reflexivity.
Qed.

(** X18 on a concrete input. *)
Lemma loadConfig_blank_allow_list_witness :
  exists cfg,
    loadConfig (envOf [("SENDGRID_API_KEY", "SG.key");
                       ("ALLOWED_SENDERS", " , ,")]) = Ok cfg /\
    value (Mail "anyone@anywhere.example" (mkSession cfg "10.0.0.7:40000" "" []))
    = None.
Proof.
  eexists. split; [reflexivity|].
  eapply (loadConfig_blank_allow_list
            (envOf [("SENDGRID_API_KEY", "SG.key"); ("ALLOWED_SENDERS", " , ,")])).
  - reflexivity.
  - intros piece [<- | [<- | [<- | []]]]; reflexivity.
  - reflexivity.
Defined.

End StartUp.

(** ** More on translation and delivery *)

Section MoreDelivery.

Import strings.
Context {lib : GoLib}.

(** X11. When [mail.ParseAddress] rejects a sender or recipient string, the
    entry used instead has an empty display name, and its address is the string
    with a run of angle brackets cut at each end: it neither starts nor ends
    with ["<"] or [">"], and trimming it again changes nothing. *)
Theorem fallback_address_trimmed (raw : string) (err : error) :
  mail_ParseAddress raw = Err err ->
  Addr_Name (parseAddress raw) = "" /\
  (exists l r, raw = l ++ Addr_Address (parseAddress raw) ++ r /\
               onlyBytes "<>" l = true /\ onlyBytes "<>" r = true) /\
  HasPrefix (Addr_Address (parseAddress raw)) "<" = false /\
  HasPrefix (Addr_Address (parseAddress raw)) ">" = false /\
  HasSuffix (Addr_Address (parseAddress raw)) "<" = false /\
  HasSuffix (Addr_Address (parseAddress raw)) ">" = false /\
  Trim (Addr_Address (parseAddress raw)) "<>" = Addr_Address (parseAddress raw).
Proof.
  intros E. unfold parseAddress. rewrite E. cbn [Addr_Name Addr_Address].
  destruct (Trim_spec raw "<>") as (Hd & Hf & Hl).
  split; [reflexivity|]. split; [exact Hd|].
  assert (forall c, IndexByte "<>" c = true ->
                    HasPrefix (Trim raw "<>") (String c "") = false) as Hp.
  { intros c Hc. destruct (HasPrefix _ _) eqn:H; [|reflexivity].
    apply HasPrefix_spec in H as [r H]. cbn [append] in H.
    rewrite (Hf _ _ H) in Hc. discriminate Hc. }
  assert (forall c, IndexByte "<>" c = true ->
                    HasSuffix (Trim raw "<>") (String c "") = false) as Hs.
  { intros c Hc. destruct (HasSuffix _ _) eqn:H; [|reflexivity].
    apply HasSuffix_spec in H as [r H].
    rewrite (Hl _ _ H) in Hc. discriminate Hc. }
  repeat split; [apply Hp | apply Hp | apply Hs | apply Hs | apply Trim_idem];
    reflexivity.
Qed.

Lemma addRecipients_map (p : Personalization) (rcpts : list string) :
  addRecipients p rcpts = mkPersonalization (To p ++ map toEmail rcpts).
Proof.
  revert p; induction rcpts as [|r rs IH]; intros p; cbn [addRecipients map].
  - rewrite app_nil_r. now destruct p.
  - rewrite IH. cbn [AddTos To]. now rewrite <- app_assoc.
Qed.

Lemma submitted_apiKeys (tr : list Event) :
  submitted tr = [] -> apiKeys tr = [].
Proof.
  induction tr as [|[l m | k r] tr IH]; cbn; [reflexivity | exact IH |].
  discriminate.
Qed.

Lemma apiKeys_app (t1 t2 : list Event) :
  apiKeys (t1 ++ t2) = (apiKeys t1 ++ apiKeys t2)%list.
Proof.
  induction t1 as [|[l m | k r] t1 IH]; cbn; [reflexivity | exact IH |].
  now rewrite IH.
Qed.

(** The request of one run of [sendViaSendGrid], apart from its content. *)
Lemma sendViaSendGrid_request (sender : string) (rcpts : list string)
    (subject body ct : string) (s : Session) :
  exists request,
    submitted (trace (sendViaSendGrid sender rcpts subject body ct s))
    = [request] /\
    apiKeys (trace (sendViaSendGrid sender rcpts subject body ct s))
    = [SendGridAPIKey (config s)] /\
    Subject request = subject /\
    Personalizations request = [mkPersonalization (map toEmail rcpts)] /\
    session (sendViaSendGrid sender rcpts subject body ct s) = s.
Proof.
  destruct (sendViaSendGrid_run sender rcpts subject body ct s)
    as (request & pre & post & v & Ea & E & Hpre & Hpost & _).
  exists request. rewrite E. cbn [trace session fst snd].
  rewrite submitted_app, apiKeys_app, Hpre, (submitted_apiKeys _ Hpre).
  cbn [submitted apiKeys app]. rewrite Hpost, (submitted_apiKeys _ Hpost).
  apply addBody_frame in Ea as (_ & HS & HP). rewrite HS, HP.
  unfold newMessage. cbn [Subject Personalizations AddPersonalizations
                            SetSubject SetFrom NewV3Mail app].
  rewrite addRecipients_map. repeat split.
Qed.

(** X10. Every run of [sendViaSendGrid] submits one request, under the API key
    of the configuration. The request carries the subject it was given and one
    personalization, whose To list has one entry per recipient string, in order
    and with duplicates, each computed from its own string alone. *)
Theorem request_recipients (sender : string) (rcpts : list string)
    (subject body ct : string) (s : Session) :
  exists request,
    submitted (trace (sendViaSendGrid sender rcpts subject body ct s))
    = [request] /\
    apiKeys (trace (sendViaSendGrid sender rcpts subject body ct s))
    = [SendGridAPIKey (config s)] /\
    Subject request = subject /\
    Personalizations request = [mkPersonalization (map toEmail rcpts)] /\
    session (sendViaSendGrid sender rcpts subject body ct s) = s.
Proof. apply sendViaSendGrid_request. Qed.

(** X9. A message whose Content-Type does not contain "multipart/" (in lower
    case, as the translator tests it) is sent as exactly one block holding the
    raw body: of type text/html when the Content-Type contains "text/html", and
    of type text/plain in every other case, an absent Content-Type included. No
    warning precedes the request. *)
Theorem non_multipart_single_block (sender : string) (rcpts : list string)
    (subject body ct : string) (s : Session) :
  Contains ct "multipart/" = false ->
  exists request post,
    trace (sendViaSendGrid sender rcpts subject body ct s)
    = ApiSend (SendGridAPIKey (config s)) request :: post /\
    submitted post = [] /\
    Contents request =
    [NewContent (if Contains ct "text/html" then "text/html" else "text/plain")
       body].
Proof.
  intros Hc.
  destruct (sendViaSendGrid_run sender rcpts subject body ct s)
    as (request & pre & post & v & Ea & E & _ & Hpost & _).
  rewrite E. cbn [trace snd].
  unfold addBody in Ea. rewrite Hc in Ea.
  destruct (Contains ct "text/html"); injection Ea as <- <-;
    eexists; exists post; repeat split; assumption.
Qed.

Lemma readParts_failingAfter (parts : list Part) (err : error)
    (t h : string) :
  readParts (failingAfter parts err) t h = Err err.
Proof.
  revert t h; induction parts as [|p rest IH]; intros t h;
    cbn [failingAfter readParts]; [reflexivity|].
  destruct (io_ReadAll (Part_Body p)); [|apply IH].
  destruct (Contains _ "text/plain"); [apply IH|].
  destruct (Contains _ "text/html"); apply IH.
Qed.

(** X13. When [NextPart] fails after any number of parts, everything read so
    far is dropped: the request carries the entire raw body as one text/plain
    block, and the error of [NextPart] is the one logged with the warning. *)
Theorem part_error_discards_parts (sender : string) (rcpts : list string)
    (subject body ct : string) (s : Session) (mediaType : string)
    (params : Params) (parts : list Part) (err : error) :
  Contains ct "multipart/" = true ->
  mime_ParseMediaType ct = Ok (mediaType, params) ->
  HasPrefix mediaType "multipart/" = true ->
  Params_get params "boundary" <> "" ->
  multipart_NewReader body (Params_get params "boundary")
  = failingAfter parts err ->
  exists request post,
    trace (sendViaSendGrid sender rcpts subject body ct s)
    = Log LogWarn (msgMultipartFallback err)
      :: ApiSend (SendGridAPIKey (config s)) request :: post /\
    submitted post = [] /\
    Contents request = [NewContent "text/plain" body].
Proof.
  intros Hc Hp Hm Hb Hr.
  destruct (sendViaSendGrid_run sender rcpts subject body ct s)
    as (request & pre & post & v & Ea & E & _ & Hpost & _).
  rewrite E. cbn [trace snd].
  unfold addBody in Ea. rewrite Hc in Ea. unfold handleMultipart in Ea.
  apply String.eqb_neq in Hb.
  rewrite Hp, Hm, Hb, Hr, readParts_failingAfter in Ea. cbn in Ea.
  injection Ea as <- <-. eexists; exists post. repeat split; assumption.
Qed.

(** The candidates the part loop ends with, from any starting values. *)
Lemma readParts_candidates (parts : list Part) (t h : string) :
  readParts (readerOf parts) t h
  = Ok (match lastOfKind kindPlain (filter readable parts) with
        | Some _ => candidate kindPlain parts
        | None => t
        end,
        match lastOfKind kindHtml (filter readable parts) with
        | Some _ => candidate kindHtml parts
        | None => h
        end).
Proof.
  revert t h; induction parts as [|p rest IH]; intros t h;
    [reflexivity|].
  cbn [readerOf readParts filter]. unfold candidate, readable, partBody.
  cbn [filter]. unfold readable, partBody.
  destruct (io_ReadAll (Part_Body p)) as [b|e] eqn:Eb.
  - cbn [lastOfKind]. unfold partKind.
    fold (partBody p) in Eb.
    destruct (Contains (Header_Get (Part_Header p) "Content-Type") "text/plain");
      [|destruct (Contains (Header_Get (Part_Header p) "Content-Type")
                    "text/html")];
      rewrite IH; unfold candidate, readable, partBody;
      destruct (lastOfKind kindPlain _) as [qp|];
      destruct (lastOfKind kindHtml _) as [qh|];
      cbn [PartKind_eqb]; unfold partBody in Eb; rewrite ?Eb; reflexivity.
  - rewrite IH. reflexivity.
Qed.

(** X14. The content of a multipart message whose parts are read to [io.EOF].
    Let the text candidate be the body of the last readable part whose
    Content-Type contains "text/plain", and the html candidate that of the last
    readable part whose Content-Type contains "text/html" but not "text/plain"
    (the empty string when there is no such part); parts of any other type and
    parts that fail to read play no role. The request holds the non-empty
    candidates, html before text; when both are empty it holds the raw body as
    one text/plain block. *)
Theorem multipart_contents (sender : string) (rcpts : list string)
    (subject body ct : string) (s : Session) (mediaType : string)
    (params : Params) (parts : list Part) :
  Contains ct "multipart/" = true ->
  mime_ParseMediaType ct = Ok (mediaType, params) ->
  HasPrefix mediaType "multipart/" = true ->
  Params_get params "boundary" <> "" ->
  multipart_NewReader body (Params_get params "boundary") = readerOf parts ->
  exists request,
    submitted (trace (sendViaSendGrid sender rcpts subject body ct s))
    = [request] /\
    Contents request =
    if (candidate kindPlain parts =? "") && (candidate kindHtml parts =? "")
    then [NewContent "text/plain" body]
    else ((if candidate kindHtml parts =? "" then []
            else [NewContent "text/html" (candidate kindHtml parts)])
          ++ (if candidate kindPlain parts =? "" then []
              else [NewContent "text/plain" (candidate kindPlain parts)]))%list.
Proof.
  intros Hc Hp Hm Hb Hr.
  destruct (sendViaSendGrid_run sender rcpts subject body ct s)
    as (request & pre & post & v & Ea & E & Hpre & Hpost & _).
  exists request. rewrite E. cbn [trace snd].
  rewrite submitted_app, Hpre. cbn [submitted app]. rewrite Hpost.
  split; [reflexivity|].
  unfold addBody in Ea. rewrite Hc in Ea. unfold handleMultipart in Ea.
  apply String.eqb_neq in Hb.
  rewrite Hp, Hm, Hb, Hr, readParts_candidates in Ea. cbn [negb] in Ea.
  assert (forall k, match lastOfKind k (filter readable parts) with
                    | Some _ => candidate k parts
                    | None => ""
                    end = candidate k parts) as Hk.
  { intros k. unfold candidate. now destruct (lastOfKind k _). }
  rewrite !Hk in Ea.
  destruct (candidate kindPlain parts =? ""), (candidate kindHtml parts =? "");
    cbn in Ea; injection Ea as <- _; reflexivity.
Qed.

(** X5. The three ways [Data] fails before translation: the input cannot be
    read, the message does not parse, or its body cannot be read. Each returns
    the error wrapped under its own prefix, logs at error level, submits no
    request and leaves the session as it was. *)
Theorem Data_failures (r : Reader) (s : Session) :
  (forall err,
      io_ReadAll r = Err err ->
      Data r s = (Some (wrapError "failed to read email data: " err), s,
                  [Log LogError (msgReadDataFailed err)])) /\
  (forall data err,
      io_ReadAll r = Ok data -> mail_ReadMessage data = Err err ->
      value (Data r s) = Some (wrapError "failed to parse email: " err) /\
      submitted (trace (Data r s)) = [] /\
      In (Log LogError (msgParseFailed err)) (trace (Data r s)) /\
      session (Data r s) = s) /\
  (forall data msg err,
      io_ReadAll r = Ok data -> mail_ReadMessage data = Ok msg ->
      io_ReadAll (Msg_Body msg) = Err err ->
      value (Data r s) = Some (wrapError "failed to read email body: " err) /\
      submitted (trace (Data r s)) = [] /\
      In (Log LogError (msgReadBodyFailed err)) (trace (Data r s)) /\
      session (Data r s) = s).
Proof.
  split; [|split].
  - intros err E. unfold Data. now rewrite E.
  - intros data err E1 E2. unfold Data. rewrite E1, E2. cbn.
    repeat split. now right; left.
  - intros data msg err E1 E2 E3. unfold Data. rewrite E1, E2, E3. cbn.
    repeat split. now do 4 right; left.
Qed.

Lemma Data_requests (r : Reader) (s : Session) :
  ((exists data msg body,
       io_ReadAll r = Ok data /\ mail_ReadMessage data = Ok msg /\
       io_ReadAll (Msg_Body msg) = Ok body) /\
   (exists request, submitted (trace (Data r s)) = [request]) /\
   apiKeys (trace (Data r s)) = [SendGridAPIKey (config s)]) \/
  (~ (exists data msg body,
         io_ReadAll r = Ok data /\ mail_ReadMessage data = Ok msg /\
         io_ReadAll (Msg_Body msg) = Ok body) /\
   submitted (trace (Data r s)) = [] /\ apiKeys (trace (Data r s)) = []).
Proof.
  destruct (io_ReadAll r) as [data|e1] eqn:E1.
  2:{ right. split; [now intros (d & m & b & H1 & _)|].
      unfold Data. rewrite E1. split; reflexivity. }
  destruct (mail_ReadMessage data) as [msg|e2] eqn:E2.
  2:{ right. split; [intros (d & m & b & [= <-] & H2 & _); congruence|].
      unfold Data. rewrite E1, E2. split; reflexivity. }
  destruct (io_ReadAll (Msg_Body msg)) as [body|e3] eqn:E3.
  2:{ right. split; [intros (d & m & b & [= <-] & H2 & H3); congruence|].
      unfold Data. rewrite E1, E2, E3. split; reflexivity. }
  left. split; [now exists data, msg, body|].
  rewrite (Data_run _ _ _ _ _ E1 E2 E3). cbn [trace snd].
  destruct (sendViaSendGrid_request (Header_Get (Msg_Header msg) "From") (to s)
              (decodeHeader (Header_Get (Msg_Header msg) "Subject")) body
              (Header_Get (Msg_Header msg) "Content-Type") s)
    as (request & Hs & Hk & _).
  rewrite !submitted_app, !apiKeys_app, Hs, Hk.
  split; [exists request|]; now destruct (value _).
Qed.

(** X6. A [Data] call submits at most one request, whatever the provider
    answers, and none unless input and message read and parse; the request goes
    out under the API key of the configuration; the session (and with it the
    envelope) is the same after the call. *)
Theorem Data_single_request (r : Reader) (s : Session) :
  List.length (submitted (trace (Data r s))) <= 1 /\
  (List.length (submitted (trace (Data r s))) = 1 <->
   exists data msg body,
     io_ReadAll r = Ok data /\ mail_ReadMessage data = Ok msg /\
     io_ReadAll (Msg_Body msg) = Ok body) /\
  (forall k, In k (apiKeys (trace (Data r s))) -> k = SendGridAPIKey (config s)) /\
  session (Data r s) = s.
Proof.
  destruct (Data_requests r s) as [(Hex & (request & ->) & ->) | (Hn & -> & ->)];
    cbn [List.length In].
  - split; [lia|]. split; [tauto|]. split; [|apply Data_session].
    intros k [<- | []]; reflexivity.
  - split; [lia|]. split; [|split; [|apply Data_session]].
    + split; [discriminate | intros H; now elim Hn].
    + intros k [].
Qed.

(** X12. The subject of the request is the decoded [Subject] header, and the
    raw header value when [DecodeHeader] fails: a subject that cannot be
    decoded does not fail the transaction. *)
Theorem Data_request_subject (r : Reader) (s : Session) (data body : string)
    (msg : Message) :
  io_ReadAll r = Ok data ->
  mail_ReadMessage data = Ok msg ->
  io_ReadAll (Msg_Body msg) = Ok body ->
  exists request,
    submitted (trace (Data r s)) = [request] /\
    (forall decoded,
        WordDecoder_DecodeHeader (Header_Get (Msg_Header msg) "Subject")
        = Ok decoded ->
        Subject request = decoded) /\
    (forall err,
        WordDecoder_DecodeHeader (Header_Get (Msg_Header msg) "Subject")
        = Err err ->
        Subject request = Header_Get (Msg_Header msg) "Subject") /\
    Personalizations request = [mkPersonalization (map toEmail (to s))].
Proof.
  intros Hr Hm Hb.
  destruct (Data_submits r s data body msg Hr Hm Hb)
    as (request & pre & Ha & Hs & _).
  exists request. split; [exact Hs|].
  apply addBody_frame in Ha as (_ & HS & HP). rewrite HS, HP.
  unfold newMessage, decodeHeader.
  cbn [Subject Personalizations AddPersonalizations SetSubject SetFrom
         NewV3Mail app].
  rewrite addRecipients_map.
  repeat split; intros x E; now rewrite E.
Qed.

End MoreDelivery.

(** ** More on sessions driven by the protocol engine *)

Section MoreDriver.

Context {lib : GoLib}.

Lemma run_cons_trace (c : Command) (cs : list Command) (s : Session) :
  trace (run (c :: cs) s)
  = (trace (step c s) ++ trace (run cs (session (step c s))))%list.
Proof.
  cbn [run]. unfold bind, trace, session.
  destruct (step c s) as [[v s1] t1]. cbn [fst snd].
  now destruct (run cs s1) as [[u s2] t2].
Qed.

Lemma step_requests (c : Command) (s : Session) :
  List.length (submitted (trace (step c s))) <= (if isData c then 1 else 0) /\
  (forall k, In k (apiKeys (trace (step c s))) -> k = SendGridAPIKey (config s)).
Proof.
  destruct c as [u p | sender | rcpt | r |]; cbn [step isData].
  - split; [cbn; lia | intros k []].
  - rewrite Mail_run. destruct (_ && _); split; cbn; try lia; intros k [].
  - split; [cbn; lia | intros k []].
  - destruct (Data_requests r s) as [(_ & (request & ->) & ->) | (_ & -> & ->)];
      cbn [List.length In]; (split; [lia|]); intros k Hk;
      [destruct Hk as [<- | []]; reflexivity | destruct Hk].
  - split; [cbn; lia | intros k []].
Qed.

(** X7. Requests leave only through [Data]: over any sequence of callbacks the
    number of requests submitted is at most the number of [Data] calls (no
    retry, no second send), and each goes out under the API key of the
    session's configuration. *)
Theorem requests_bounded_by_data_calls (cs : list Command) (s : Session) :
  List.length (submitted (trace (run cs s))) <= List.length (filter isData cs) /\
  (forall k, In k (apiKeys (trace (run cs s))) -> k = SendGridAPIKey (config s)).
Proof.
  revert s; induction cs as [|c cs IH]; intros s.
  - split; [cbn; lia | intros k []].
  - rewrite run_cons_trace, submitted_app, apiKeys_app, List.length_app.
    destruct (step_requests c s) as [H1 H2].
    destruct (IH (session (step c s))) as [H3 H4].
    destruct (step_session c s) as (Hc & _).
    split.
    + cbn [filter]. destruct (isData c); cbn [List.length]; lia.
    + intros k Hk. apply in_app_or in Hk as [Hk | Hk]; [now apply H2|].
      rewrite <- Hc. now apply H4.
Qed.

(** X8. Authentication is accepted and ignored: [AuthPlain] succeeds for every
    user name and password and keeps the session, and removing the [AuthPlain]
    calls from any sequence of callbacks changes neither the final session nor
    the requests submitted. *)
Theorem AuthPlain_has_no_effect (cs : list Command) (s : Session) :
  (forall username password,
      value (AuthPlain username password s) = None /\
      session (AuthPlain username password s) = s) /\
  session (run cs s)
  = session (run (filter (fun c => negb (isAuthPlain c)) cs) s) /\
  submitted (trace (run cs s))
  = submitted (trace (run (filter (fun c => negb (isAuthPlain c)) cs) s)).
Proof.
  split; [intros; split; reflexivity|].
  revert s; induction cs as [|c cs IH]; intros s; [split; reflexivity|].
  cbn [filter]. destruct (isAuthPlain c) eqn:Ec; cbn [negb].
  - destruct c; try discriminate Ec.
    rewrite run_cons_session, run_cons_trace, submitted_app.
    cbn [step]. apply IH.
  - rewrite !run_cons_session, !run_cons_trace, !submitted_app.
    destruct (IH (session (step c s))) as [-> ->]. split; reflexivity.
Qed.

(** What the two flags of [callOrder] record about the session. *)
Lemma callOrder_envelope (cs : list Command) (r : Reader)
    (mailAccepted rcptReceived : bool) (s : Session) :
  callOrder mailAccepted rcptReceived (cs ++ [cmdData r]) s = true ->
  (mailAccepted = true ->
   AllowedSenders (config s) = [] \/
   allowed (strings.ToLower (from s)) (AllowedSenders (config s)) = true) ->
  (rcptReceived = true -> to s <> []) ->
  config (session (run cs s)) = config s /\
  to (session (run cs s)) <> [] /\
  (AllowedSenders (config s) = [] \/
   allowed (strings.ToLower (from (session (run cs s))))
     (AllowedSenders (config s)) = true).
Proof.
  revert mailAccepted rcptReceived s.
  induction cs as [|c cs IH]; intros a b s H Ha Hb.
  - cbn in H. apply andb_prop in H as [H _]. apply andb_prop in H as [-> ->].
    split; [reflexivity|]. split; [now apply Hb | now apply Ha].
  - rewrite run_cons_session. cbn [app callOrder] in H.
    destruct (step_session c s) as (Hc & _).
    assert (forall a' b',
               callOrder a' b' (cs ++ [cmdData r]) (session (step c s)) = true ->
               (a' = true ->
                AllowedSenders (config s) = [] \/
                allowed (strings.ToLower (from (session (step c s))))
                  (AllowedSenders (config s)) = true) ->
               (b' = true -> to (session (step c s)) <> []) ->
               config (session (run cs (session (step c s)))) = config s /\
               to (session (run cs (session (step c s)))) <> [] /\
               (AllowedSenders (config s) = [] \/
                allowed
                  (strings.ToLower
                     (from (session (run cs (session (step c s))))))
                  (AllowedSenders (config s)) = true)) as Hnext.
    { intros a' b' H' Ha' Hb'. rewrite <- Hc.
      rewrite <- Hc in Ha'. destruct (IH a' b' _ H' Ha' Hb') as (E & Ht & Hs).
      now rewrite E. }
    destruct c as [u p | sender | rcpt | r' |]; cbn [step] in *.
    + apply (Hnext _ _ H); assumption.
    + apply (Hnext _ _ H).
      * rewrite Mail_run. rewrite Mail_run in H.
        destruct (Nat.ltb 0 (List.length (AllowedSenders (config s)))) eqn:El;
          [destruct (allowed (strings.ToLower sender)
                       (AllowedSenders (config s))) eqn:Ea|];
          cbn; intros Hor.
        -- now right.
        -- apply Ha. now rewrite orb_false_r in Hor.
        -- left. destruct (AllowedSenders (config s)); [reflexivity|].
           discriminate El.
      * rewrite Mail_run. destruct (_ && _); exact Hb.
    + apply (Hnext _ _ H); [exact Ha|].
      intros _. cbn. now destruct (to s).
    + apply andb_prop in H as [H1 H]. apply andb_prop in H1 as [-> ->].
      apply (Hnext _ _ H); rewrite Data_session; assumption.
    + apply (Hnext _ _ H); intros E; discriminate E.
Qed.

(** C3.  Let the callbacks of a session be called in the order the protocol
    engine keeps ([callOrder]), with ASCII senders and an ASCII allow-list.
    Then at every [Data] call the recipient list is non-empty and, when an
    allow-list is configured, the stored sender has passed the allow-list
    check; the request such a call submits has a To entry for each of these
    recipients, so [Data] never translates with an empty recipient list. *)
Theorem Data_in_call_order_has_envelope (cfg : Config) (remote : string)
    (cs : list Command) (r : Reader) :
  forallb asciiSender cs = true ->
  forallb isASCII (AllowedSenders cfg) = true ->
  callOrder false false (cs ++ [cmdData r]) (fst (NewSession cfg remote)) = true ->
  to (session (run cs (fst (NewSession cfg remote)))) <> [] /\
  (AllowedSenders cfg <> [] ->
   allowed
     (strings.ToLower (from (session (run cs (fst (NewSession cfg remote))))))
     (AllowedSenders cfg) = true) /\
  (forall data msg body,
      io_ReadAll r = Ok data ->
      mail_ReadMessage data = Ok msg ->
      io_ReadAll (Msg_Body msg) = Ok body ->
      exists request,
        submitted
          (trace (Data r (session (run cs (fst (NewSession cfg remote))))))
        = [request] /\
        Personalizations request =
        [mkPersonalization
           (map toEmail (to (session (run cs (fst (NewSession cfg remote))))))] /\
        map toEmail (to (session (run cs (fst (NewSession cfg remote))))) <> []).
Proof.
  intros _ _ H. cbn [NewSession fst] in *.
  destruct (callOrder_envelope cs r false false _ H) as (Hc & Ht & Hs);
    try (intros E; discriminate E).
  cbn [config] in Hc, Hs.
  split; [exact Ht|]. split.
  - intros HD. destruct Hs as [Hs | Hs]; [now elim HD | exact Hs].
  - intros data msg body Hr Hm Hb.
    destruct (Data_submits r (session (run cs (mkSession cfg remote "" [])))
                data body msg Hr Hm Hb)
      as (request & pre & Ha & Hsub & _).
    exists request. split; [exact Hsub|].
    apply addBody_frame in Ha as (_ & _ & HP). rewrite HP.
    unfold newMessage.
    cbn [Personalizations AddPersonalizations SetSubject SetFrom NewV3Mail app].
    rewrite addRecipients_map. cbn [NewPersonalization To app].
    split; [reflexivity|].
    destruct (to (session (run cs (mkSession cfg remote "" []))));
      [now elim Ht | discriminate].
Qed.

End MoreDriver.

(** ** More runs on concrete messages *)

Section MoreRuns.

Import strings Examples.

(** X11 on a concrete input. *)
Lemma fallback_address_trimmed_witness :
  Addr_Name (parseAddress (lib := golib accepted202) "<not an address>") = "" /\
  Trim (Addr_Address (parseAddress (lib := golib accepted202) "<not an address>"))
    "<>"
  = Addr_Address (parseAddress (lib := golib accepted202) "<not an address>").
Proof.
  destruct (fallback_address_trimmed (lib := golib accepted202)
              "<not an address>" (errorString "mail: no address") eq_refl)
    as (Hn & _ & _ & _ & _ & _ & Ht).
  split; [exact Hn | exact Ht].
Defined.

(** X9 on a concrete input. *)
Lemma non_multipart_single_block_witness :
  exists request post,
    trace (sendViaSendGrid (lib := golib accepted202) "a@b.com" ["c@d.com"]
             "Hi" "<p>hello</p>" "text/html; charset=utf-8" (freshSession []))
    = ApiSend "SG.key" request :: post /\
    Contents request = [NewContent "text/html" "<p>hello</p>"].
Proof.
  destruct (non_multipart_single_block (lib := golib accepted202)
              "a@b.com" ["c@d.com"] "Hi" "<p>hello</p>"
              "text/html; charset=utf-8" (freshSession []) eq_refl)
    as (request & post & Ht & _ & Hc).
  exists request, post. split; [exact Ht | exact Hc].
Defined.

(** X13 on a concrete input. *)
Lemma part_error_discards_parts_witness :
  exists request post,
    trace (sendViaSendGrid (lib := Truncated.golib accepted202) "a@b.com"
             ["c@d.com"] "Hi" Truncated.body
             "multipart/alternative; boundary=b" (freshSession []))
    = Log LogWarn (msgMultipartFallback Truncated.nextPartError)
      :: ApiSend "SG.key" request :: post /\
    Contents request = [NewContent "text/plain" Truncated.body].
Proof.
  destruct (part_error_discards_parts (lib := Truncated.golib accepted202)
              "a@b.com" ["c@d.com"] "Hi" Truncated.body
              "multipart/alternative; boundary=b" (freshSession [])
              "multipart/alternative" [("boundary", "b")] Truncated.parts
              Truncated.nextPartError eq_refl eq_refl eq_refl)
    as (request & post & Ht & _ & Hc).
  - discriminate.
  - reflexivity.
  - exists request, post. split; [exact Ht | exact Hc].
Defined.

(** X14 on a concrete input. *)
Lemma multipart_contents_witness :
  exists request,
    submitted
      (trace (sendViaSendGrid (lib := golib accepted202) "a@b.com" ["c@d.com"]
                "Hi" emptyTextBody "multipart/alternative; boundary=b"
                (freshSession [])))
    = [request] /\
    Contents request = [NewContent "text/html" "<p>hi</p>"].
Proof.
  apply (multipart_contents (lib := golib accepted202)
           "a@b.com" ["c@d.com"] "Hi" emptyTextBody
           "multipart/alternative; boundary=b" (freshSession [])
           "multipart/alternative" [("boundary", "b")] emptyTextParts);
    try reflexivity; discriminate.
Defined.

(** X5 on a concrete input. *)
Lemma Data_failures_witness :
  value (Data (lib := golib accepted202) (bytesReader "no header here")
           (freshSession []))
  = Some (wrapError "failed to parse email: "
            (errorString "mail: malformed message")) /\
  submitted (trace (Data (lib := golib accepted202)
                      (bytesReader "no header here") (freshSession []))) = [].
Proof.
  destruct (Data_failures (lib := golib accepted202)
              (bytesReader "no header here") (freshSession []))
    as (_ & H & _).
  destruct (H "no header here" (errorString "mail: malformed message")
              eq_refl eq_refl) as (Hv & Hs & _).
  split; [exact Hv | exact Hs].
Defined.

(** X12 on a concrete input. *)
Lemma Data_request_subject_witness :
  exists request,
    submitted (trace (Data (lib := golib accepted202)
                        (bytesReader (rawMessage "text/plain" "hello"))
                        (freshSession [])))
    = [request] /\
    Subject request = "Hi".
Proof.
  destruct (Data_request_subject (lib := golib accepted202)
              (bytesReader (rawMessage "text/plain" "hello")) (freshSession [])
              (rawMessage "text/plain" "hello") "hello"
              (parsedMessage "text/plain" "hello") eq_refl eq_refl eq_refl)
    as (request & Hs & Hd & _).
  exists request. split; [exact Hs | exact (Hd "Hi" eq_refl)].
Defined.

(** C3 on the call order [MAIL], [RCPT], [DATA] under the allow-list
    [trusted.com]. *)
Lemma Data_in_call_order_has_envelope_witness :
  to (session (run (lib := golib accepted202)
                 [cmdMail "a@trusted.com"; cmdRcpt "c@d.com"]
                 (fst (NewSession (relayConfig ["trusted.com"])
                         "10.0.0.7:40000"))))
  <> [] /\
  allowed
    (ToLower
       (from (session (run (lib := golib accepted202)
                         [cmdMail "a@trusted.com"; cmdRcpt "c@d.com"]
                         (fst (NewSession (relayConfig ["trusted.com"])
                                 "10.0.0.7:40000"))))))
    ["trusted.com"] = true.
Proof.
  destruct (Data_in_call_order_has_envelope (lib := golib accepted202)
              (relayConfig ["trusted.com"]) "10.0.0.7:40000"
              [cmdMail "a@trusted.com"; cmdRcpt "c@d.com"]
              (bytesReader (rawMessage "text/plain" "hello"))
              eq_refl eq_refl eq_refl)
    as (Ht & Hs & _).
  split; [exact Ht|]. apply Hs. discriminate.
Defined.

End MoreRuns.
